(** * COSA smart thermostat integration: API client and polling coordinator

    A shallow embedding of [custom_components/cosa/api.py] (the HTTP client
    [CosaAPI] and the normaliser [extract_endpoint_state]) and of the refresh
    method of [custom_components/cosa/climate.py] ([CosaCoordinator]).

    Python values are JSON values; an [async] method is a computation in a
    state-and-exception monad whose state is the log of the requests sent on
    the HTTP session; the remote server is an arbitrary function of that log
    and of the request. *)

From Stdlib Require Import PrimFloat ZArith.
From stdpp Require Import gmap strings list.

Set Warnings "-register-all".

(** ** Exceptions *)

(** The exception classes the two modules raise, catch or let through.
    [CosaAPIError] and [CosaAuthError] are declared in api.py (lines 38-45);
    the others belong to Python, aiohttp and Home Assistant. *)
Inductive exc_class : Set :=
  | BaseException
  | Exception
  | CancelledError
  | TimeoutError
  | TypeError
  | AttributeError
  | KeyError
  | ValueError
  | ClientError
  | ContentTypeError
  | UpdateFailed
  | CosaAPIError
  | CosaAuthError.

#[global] Instance exc_class_eq_dec : EqDecision exc_class.
Proof. solve_decision. Defined.

(** The direct base class, as in the [class C(B)] headers:
    [class CosaAPIError(Exception)], [class CosaAuthError(CosaAPIError)]. *)
Definition base (c : exc_class) : option exc_class :=
  match c with
  | BaseException => None
  | Exception => Some BaseException
  | CancelledError => Some BaseException
  | TimeoutError => Some Exception
  | TypeError => Some Exception
  | AttributeError => Some Exception
  | KeyError => Some Exception
  | ValueError => Some Exception
  | ClientError => Some Exception
  | ContentTypeError => Some ClientError
  | UpdateFailed => Some Exception
  | CosaAPIError => Some Exception
  | CosaAuthError => Some CosaAPIError
  end.

(** [issubclass c d]: [d] is reached from [c] by following [base]; the
    hierarchy is four levels deep, the fuel is generous. *)
Fixpoint issubclass_upto (fuel : nat) (c d : exc_class) : bool :=
  if decide (c = d) then true
  else match fuel with
       | O => false
       | S fuel' =>
           match base c with
           | Some b => issubclass_upto fuel' b d
           | None => false
           end
       end.

Definition issubclass (c d : exc_class) : bool := issubclass_upto 8 c d.

(** ** Python values *)

(** What [json.loads] produces, which is also every value the modelled code
    handles: [None], [bool], [int], [float], [str], [list], [dict]. *)
Inductive json : Type :=
  | JNull
  | JBool (b : bool)
  | JInt (n : Z)
  | JFloat (f : float)
  | JStr (s : string)
  | JList (l : list json)
  | JDict (d : gmap string json).

#[global] Instance json_inhabited : Inhabited json := populate JNull.

(** The result of evaluating an expression or of a call: a value or a raised
    exception, identified by its class (message texts are not modelled). *)
Inductive outcome (A : Type) : Type :=
  | Return (a : A)
  | Raise (e : exc_class).
Arguments Return {A} a.
Arguments Raise {A} e.

#[global] Instance outcome_ret : MRet outcome := fun A a => Return a.
#[global] Instance outcome_bind : MBind outcome := fun A B k m =>
  match m with
  | Return a => k a
  | Raise e => Raise e
  end.

(** An integer as a float, exact below 2^53; the source only compares with
    the literals [0] and [111]. *)
Fixpoint float_of_pos (p : positive) : float :=
  match p with
  | xH => 1%float
  | xO q => (2 * float_of_pos q)%float
  | xI q => (2 * float_of_pos q + 1)%float
  end.

Definition float_of_Z (n : Z) : float :=
  match n with
  | Z0 => 0%float
  | Zpos p => float_of_pos p
  | Zneg p => (- float_of_pos p)%float
  end.

(** [v == n] for an [int] literal [n]: [bool] is a subclass of [int]
    ([False == 0]), a float compares by value ([0.0 == 0], [-0.0 == 0]), every
    other value is unequal. *)
Definition py_eq_int (v : json) (n : Z) : bool :=
  match v with
  | JBool b => ((if b then 1 else 0) =? n)%Z
  | JInt m => (m =? n)%Z
  | JFloat f => PrimFloat.eqb f (float_of_Z n)
  | _ => false
  end.

(** Truth value of an object, as [if x:] and [not x] test it. *)
Definition py_truthy (v : json) : bool :=
  match v with
  | JNull => false
  | JBool b => b
  | JInt n => negb (n =? 0)%Z
  | JFloat f => negb (PrimFloat.eqb f 0%float)
  | JStr s => negb (String.eqb s "")
  | JList l => match l with [] => false | _ => true end
  | JDict d => negb (bool_decide (d = ∅))
  end.

(** [a or b]. *)
Definition py_or (a b : json) : json := if py_truthy a then a else b.

(** [key in data] for a [str] key: a key of a dict, an element of a list, a
    substring of a str; the other values are not containers. *)
Definition py_contains (key : string) (data : json) : outcome bool :=
  match data with
  | JDict d => Return (bool_decide (is_Some (d !! key)))
  | JList l =>
      Return (existsb (fun x => match x with JStr s => String.eqb s key | _ => false end) l)
  | JStr s => Return (bool_decide (is_Some (String.index 0 key s)))
  | _ => Raise TypeError
  end.

(** [data[key]] for a [str] key: only a dict is indexed by a string. *)
Definition py_getitem (data : json) (key : string) : outcome json :=
  match data with
  | JDict d => match d !! key with Some v => Return v | None => Raise KeyError end
  | _ => Raise TypeError
  end.

(** [obj.get(key, dflt)]: only a dict has the method. *)
Definition py_get (obj : json) (key : string) (dflt : json) : outcome json :=
  match obj with
  | JDict d => Return (default dflt (d !! key))
  | _ => Raise AttributeError
  end.

(** [d.get(key, dflt)] on a dict with [str] keys, for a key that is any value:
    a list or a dict is unhashable, every other non-string key is absent. *)
Definition dict_get_any (d : gmap string json) (key : json) (dflt : json) : outcome json :=
  match key with
  | JStr s => Return (default dflt (d !! s))
  | JList _ | JDict _ => Raise TypeError
  | _ => Return dflt
  end.

(** [len(x)]. *)
Definition py_len (x : json) : outcome nat :=
  match x with
  | JStr s => Return (String.length s)
  | JList l => Return (length l)
  | JDict d => Return (size d)
  | _ => Raise TypeError
  end.

(** [isinstance(data, dict) and data.get("ok") == 0], the body-level failure
    flag every operation tests. *)
Definition ok_is_zero (data : json) : bool :=
  match data with
  | JDict d => py_eq_int (default JNull (d !! "ok")) 0
  | _ => false
  end.

(** ** The state-and-exception monad *)

(** A computation over a state [S]: it ends by returning or by raising, and
    leaves a state either way. *)
Definition io (S A : Type) : Type := S -> outcome A * S.

#[global] Instance io_ret {S} : MRet (io S) := fun A a s => (Return a, s).
#[global] Instance io_bind {S} : MBind (io S) := fun A B k m s =>
  match m s with
  | (Return a, s') => k a s'
  | (Raise e, s') => (Raise e, s')
  end.

(** [raise C(...)]. *)
Definition raise {S A} (e : exc_class) : io S A := fun s => (Raise e, s).

(** An expression that touches no state. *)
Definition eval {S A} (o : outcome A) : io S A := fun s => (o, s).

(** The first [except C:] clause, in textual order, whose class the raised
    exception is an instance of. *)
Fixpoint select_handler {H : Type} (e : exc_class) (clauses : list (exc_class * H)) : option H :=
  match clauses with
  | [] => None
  | (c, h) :: rest => if issubclass e c then Some h else select_handler e rest
  end.

(** [try: body  except C1: h1  except C2: h2 ...]. An exception raised by the
    selected handler leaves the statement: the sibling clauses do not see it. *)
Definition try_except {S A} (body : io S A) (clauses : list (exc_class * io S A)) : io S A :=
  fun s =>
    match body s with
    | (Return a, s') => (Return a, s')
    | (Raise e, s') =>
        match select_handler e clauses with
        | Some h => h s'
        | None => (Raise e, s')
        end
    end.

(** ** The HTTP session *)

(** What [session.post(url, json=..., headers=..., timeout=...)] is given. *)
Record request : Type := Request {
  url : string;
  req_json : json;
  headers : gmap string json;
  timeout : Z;
}.

(** [await response.json()] either gives the decoded body or raises:
    [aiohttp.ContentTypeError] (a [ClientError]) on a wrong content type,
    [json.JSONDecodeError] (a [ValueError]) on malformed text. *)
Inductive decode_failure : Set := WrongContentType | MalformedJSON.

Inductive decoded : Type :=
  | Body (v : json)
  | Undecodable (f : decode_failure).

(** A received response: its status and what decoding its body gives. The
    body text is read by the source only for log lines and exception
    messages, which are not modelled; an exchange whose body cannot be read
    counts as failed. *)
Record response : Type := Response {
  status : Z;
  decoding : decoded;
}.

(** The exchange fails inside aiohttp (an [aiohttp.ClientError]), runs into
    the total timeout ([asyncio.TimeoutError]), or yields a response. *)
Inductive transport_failure : Set := ConnectionFailed | TimedOut.

Inductive exchange : Type :=
  | Fails (f : transport_failure)
  | Responds (r : response).

(** The session state is the log of the requests sent so far, oldest first. *)
Definition session : Type := list request.

(** The remote side: any function of the requests seen so far and of the new
    request. *)
Definition server : Type := session -> request -> exchange.

Definition transport_exception (f : transport_failure) : exc_class :=
  match f with
  | ConnectionFailed => ClientError
  | TimedOut => TimeoutError
  end.

Definition decode_exception (f : decode_failure) : exc_class :=
  match f with
  | WrongContentType => ContentTypeError
  | MalformedJSON => ValueError
  end.

(** [async with self._session.post(...) as response]. *)
Definition post (srv : server) (req : request) : io session response :=
  fun sent =>
    match srv sent req with
    | Fails f => (Raise (transport_exception f), sent ++ [req])
    | Responds r => (Return r, sent ++ [req])
    end.

(** [await response.json()]. *)
Definition response_json (r : response) : outcome json :=
  match decoding r with
  | Body v => Return v
  | Undecodable f => Raise (decode_exception f)
  end.

(** ** const.py *)

Definition API_BASE_URL : string := "https://kiwi-api.nuvia.com.tr".
Definition API_TIMEOUT : Z := 30.
Definition ENDPOINT_LOGIN : string := "/api/users/login".
Definition ENDPOINT_GET_ENDPOINTS : string := "/api/endpoints/getEndpoints".
Definition ENDPOINT_GET_ENDPOINT : string := "/api/endpoints/getEndpoint".
Definition ENDPOINT_SET_MODE : string := "/api/endpoints/setMode".
Definition ENDPOINT_SET_TARGET_TEMPERATURES : string := "/api/endpoints/setTargetTemperatures".
Definition HEADER_USER_AGENT : string := "Cosa/1 CFNetwork/3860.200.71 Darwin/25.1.0".
Definition HEADER_CONTENT_TYPE : string := "application/json".
Definition HEADER_PROVIDER : string := "cosa".

(** ** api.py: class CosaAPI *)

Module CosaAPI.
Section Client.

(** The server the session talks to. *)
Variable srv : server.

(** [_get_base_headers] (lines 55-63). *)
Definition _get_base_headers : gmap string json :=
  {[ "User-Agent" := JStr HEADER_USER_AGENT;
     "Content-Type" := JStr HEADER_CONTENT_TYPE;
     "provider" := JStr HEADER_PROVIDER;
     "Accept" := JStr "*/*";
     "Accept-Language" := JStr "tr-TR,tr;q=0.9" ]}.

(** [_get_auth_headers] (lines 65-69). *)
Definition _get_auth_headers (token : json) : gmap string json :=
  let headers := _get_base_headers in
  <["authtoken" := token]> headers.

(** The candidate field names of [_extract_token], in the order tried. *)
Definition token_keys : list string :=
  ["authtoken"; "authToken"; "token"; "accessToken"; "access_token"].

(** [for key in token_keys: if key in data and isinstance(data[key], str):
    return data[key]]; [None] stands for a loop that ran to its end. *)
Fixpoint find_token (keys : list string) (data : json) : outcome (option string) :=
  match keys with
  | [] => Return None
  | key :: rest =>
      present ← py_contains key data;
      if (present : bool) then
        v ← py_getitem data key;
        match v with
        | JStr s => Return (Some s)
        | _ => find_token rest data
        end
      else find_token rest data
  end.

(** [_extract_token] (lines 137-153). *)
Definition _extract_token (data : json) : outcome (option string) :=
  top ← find_token token_keys data;
  match top with
  | Some s => Return (Some s)
  | None =>
      wrapped ← py_contains "data" data;
      if (wrapped : bool) then
        inner ← py_getitem data "data";
        match inner with
        | JDict _ => find_token token_keys inner
        | _ => Return None
        end
      else Return None
  end.

(** The request of [login] (lines 78-94). *)
Definition login_request (email password : json) : request :=
  let url := API_BASE_URL +:+ ENDPOINT_LOGIN in
  let payload := {[ "email" := email; "password" := password ]} in
  Request url (JDict payload) _get_base_headers API_TIMEOUT.

(** [login] (lines 71-135). *)
Definition login (email password : json) : io session string :=
  try_except
    (response ← post srv (login_request email password);
     if (status response =? 401)%Z then raise CosaAuthError
     else if (status response =? 200)%Z then
       data ← try_except (eval (response_json response))
                         [(Exception, raise CosaAPIError)];
       if ok_is_zero data then
         error_code ← eval (py_get data "code" (JStr "unknown"));
         if py_eq_int error_code 111 then raise CosaAuthError
         else raise CosaAPIError
       else
         token ← eval (_extract_token data);
         match token with
         | None => raise CosaAPIError
         | Some t => if String.eqb t "" then raise CosaAPIError else mret t
         end
     else raise CosaAPIError)
    [(ClientError, raise CosaAPIError)].

(** The request of [get_endpoints] (lines 157-167). *)
Definition get_endpoints_request (token : json) : request :=
  let url := API_BASE_URL +:+ ENDPOINT_GET_ENDPOINTS in
  Request url (JDict ∅) (_get_auth_headers token) API_TIMEOUT.

(** [get_endpoints] (lines 155-193). The argument of the debug line,
    [len(endpoints)], is evaluated whatever the log level. *)
Definition get_endpoints (token : json) : io session json :=
  try_except
    (response ← post srv (get_endpoints_request token);
     if (status response =? 401)%Z then raise CosaAuthError
     else if negb (status response =? 200)%Z then raise CosaAPIError
     else
       data ← eval (response_json response);
       if ok_is_zero data then
         error_code ← eval (py_get data "code" (JStr "unknown"));
         raise CosaAPIError
       else
         endpoints ← eval (py_get data "endpoints" (JList []));
         _ ← eval (py_len endpoints);
         mret endpoints)
    [(ClientError, raise CosaAPIError)].

(** The request of [get_endpoint_detail] (lines 197-209). *)
Definition get_endpoint_detail_request (token endpoint_id : json) : request :=
  let url := API_BASE_URL +:+ ENDPOINT_GET_ENDPOINT in
  let payload := {[ "endpoint" := endpoint_id ]} in
  Request url (JDict payload) (_get_auth_headers token) API_TIMEOUT.

(** [get_endpoint_detail] (lines 195-229). *)
Definition get_endpoint_detail (token endpoint_id : json) : io session json :=
  try_except
    (response ← post srv (get_endpoint_detail_request token endpoint_id);
     if (status response =? 401)%Z then raise CosaAuthError
     else if negb (status response =? 200)%Z then raise CosaAPIError
     else
       data ← eval (response_json response);
       if ok_is_zero data then
         error_code ← eval (py_get data "code" (JStr "unknown"));
         raise CosaAPIError
       else eval (py_get data "endpoint" data))
    [(ClientError, raise CosaAPIError)].

(** The payload of [set_mode] (lines 248-255): [option] is added only when
    it is truthy. *)
Definition set_mode_payload (endpoint_id mode option : json) : gmap string json :=
  let payload := {[ "endpoint" := endpoint_id; "mode" := mode ]} in
  if py_truthy option then <["option" := option]> payload else payload.

Definition set_mode_request (token endpoint_id mode option : json) : request :=
  let url := API_BASE_URL +:+ ENDPOINT_SET_MODE in
  Request url (JDict (set_mode_payload endpoint_id mode option))
          (_get_auth_headers token) API_TIMEOUT.

(** [set_mode] (lines 231-286). *)
Definition set_mode (token endpoint_id mode option : json) : io session bool :=
  try_except
    (response ← post srv (set_mode_request token endpoint_id mode option);
     if (status response =? 401)%Z then raise CosaAuthError
     else if negb (status response =? 200)%Z then raise CosaAPIError
     else
       data ← eval (response_json response);
       if ok_is_zero data then
         error_code ← eval (py_get data "code" (JStr "unknown"));
         raise CosaAPIError
       else mret true)
    [(ClientError, raise CosaAPIError)].

(** The payload of [set_target_temperatures] (lines 300-308). *)
Definition set_target_temperatures_payload
    (endpoint_id home away sleep custom : json) : gmap string json :=
  {[ "endpoint" := endpoint_id;
     "targetTemperatures" :=
       JDict {[ "home" := home; "away" := away; "sleep" := sleep; "custom" := custom ]} ]}.

Definition set_target_temperatures_request
    (token endpoint_id home away sleep custom : json) : request :=
  let url := API_BASE_URL +:+ ENDPOINT_SET_TARGET_TEMPERATURES in
  Request url (JDict (set_target_temperatures_payload endpoint_id home away sleep custom))
          (_get_auth_headers token) API_TIMEOUT.

(** [set_target_temperatures] (lines 288-339). *)
Definition set_target_temperatures
    (token endpoint_id home away sleep custom : json) : io session bool :=
  try_except
    (response ← post srv
       (set_target_temperatures_request token endpoint_id home away sleep custom);
     if (status response =? 401)%Z then raise CosaAuthError
     else if negb (status response =? 200)%Z then raise CosaAPIError
     else
       data ← eval (response_json response);
       if ok_is_zero data then
         error_code ← eval (py_get data "code" (JStr "unknown"));
         raise CosaAPIError
       else mret true)
    [(ClientError, raise CosaAPIError)].

End Client.
End CosaAPI.

(** ** api.py: extract_endpoint_state *)

(** The per-option setpoints (lines 362-378): the four detailed fields when
    the record has [homeTemperature], the fixed set otherwise. *)
Definition target_temps_of (endpoint : gmap string json) : gmap string json :=
  if bool_decide (is_Some (endpoint !! "homeTemperature")) then
    {[ "home" := default (JFloat 20.0) (endpoint !! "homeTemperature");
       "away" := default (JFloat 15.0) (endpoint !! "awayTemperature");
       "sleep" := default (JFloat 18.0) (endpoint !! "sleepTemperature");
       "custom" := default (JFloat 20.0) (endpoint !! "customTemperature") ]}
  else
    {[ "home" := JFloat 20.0;
       "away" := JFloat 15.0;
       "sleep" := JFloat 18.0;
       "custom" := JFloat 20.0 ]}.

(** [extract_endpoint_state] (lines 342-400). *)
Definition extract_endpoint_state (endpoint : gmap string json) : outcome (gmap string json) :=
  let mode := default (JStr "manual") (endpoint !! "mode") in
  let option := default (JStr "home") (endpoint !! "option") in
  let target_temps := target_temps_of endpoint in
  let current_target := default JNull (endpoint !! "targetTemperature") in
  current_target ←
    match current_target with
    | JNull => dict_get_any target_temps option (JFloat 20.0)
    | _ => Return current_target
    end;
  let combi_state := default (JStr "off") (endpoint !! "combiState") in
  Return
    {[ "endpoint_id" :=
         py_or (default JNull (endpoint !! "id")) (default JNull (endpoint !! "_id"));
       "name" := default (JStr "COSA Termostat") (endpoint !! "name");
       "temperature" := default JNull (endpoint !! "temperature");
       "humidity" := default JNull (endpoint !! "humidity");
       "target_temperature" := current_target;
       "mode" := mode;
       "option" := option;
       "combi_state" := combi_state;
       "is_connected" := default (JBool false) (endpoint !! "isConnected");
       "operation_mode" := default (JStr "heating") (endpoint !! "operationMode");
       "target_temperatures" := JDict target_temps ]}.

(** ** climate.py: class CosaCoordinator *)

(** The attributes [__init__] stores (lines 59-65). They hold whatever the
    config entry holds and whatever is assigned later, so they are values. *)
Record CosaCoordinator : Type := Coordinator {
  _email : json;
  _password : json;
  _token : json;
  _endpoint_id : json;
  _device_name : json;
  _place_id : json;
}.

(** A method of the coordinator runs over the coordinator and the session of
    its [_api]. *)
Definition coordinator_state : Type := (CosaCoordinator * session)%type.

Definition get_self : io coordinator_state CosaCoordinator :=
  fun st => (Return (fst st), st).

(** [self._token = v]. *)
Definition set_token (v : json) : io coordinator_state unit :=
  fun st =>
    let self := fst st in
    (Return (),
     (Coordinator (_email self) (_password self) v (_endpoint_id self)
                  (_device_name self) (_place_id self),
      snd st)).

(** [await self._api.m(...)]: a client method run on the session. *)
Definition await_api {A} (m : io session A) : io coordinator_state A :=
  fun st =>
    let (r, sent) := m (snd st) in
    (r, (fst st, sent)).

(** [self._api.get_forecast]: class [CosaAPI] defines no such attribute, the
    lookup raises before any argument is evaluated. *)
Definition get_forecast {A} : io coordinator_state A := raise AttributeError.

(** [_async_update_data] (lines 69-92). The arguments of
    [get_endpoint_detail] are positional and given as [(endpoint_id, token)];
    the result of [login] is a [str], on which [.get] is looked up. *)
Definition _async_update_data (srv : server) : io coordinator_state json :=
  try_except
    (self ← get_self;
     detail ← await_api (CosaAPI.get_endpoint_detail srv (_endpoint_id self) (_token self));
     forecast ←
       (if py_truthy (_place_id self) then get_forecast else mret (JDict ∅));
     mret (JDict {[ "endpoint" := detail; "forecast" := forecast ]}))
    [(CosaAuthError,
       self ← get_self;
       login_result ← await_api (CosaAPI.login srv (_email self) (_password self));
       ok ← eval (py_get (JStr login_result) "ok" JNull);
       if py_truthy ok then
         token ← eval (py_get (JStr login_result) "token" JNull);
         _ ← set_token token;
         self ← get_self;
         detail ← await_api (CosaAPI.get_endpoint_detail srv (_endpoint_id self) (_token self));
         mret (JDict {[ "endpoint" := detail; "forecast" := JDict ∅ ]})
       else raise UpdateFailed);
     (CosaAPIError, raise UpdateFailed)].

(** ** Python values, continued *)

(** [v == s] for a [str] literal [s]: only an equal string is equal. *)
Definition py_eq_str (v : json) (s : string) : bool :=
  match v with
  | JStr t => String.eqb t s
  | _ => false
  end.

(** [x[0] if x else {}]: the first element of a non-empty list, the first
    character of a non-empty string; a non-empty dict with [str] keys has no
    key [0], and a number or [True] cannot be indexed. *)
Definition first_or_empty (x : json) : outcome json :=
  if py_truthy x then
    match x with
    | JList (v :: _) => Return v
    | JStr (String c _) => Return (JStr (String c EmptyString))
    | JDict _ => Raise KeyError
    | _ => Raise TypeError
    end
  else Return (JDict ∅).

(** ** const.py, continued *)

Definition MODE_MANUAL : string := "manual".
Definition MODE_AUTO : string := "auto".
Definition MODE_SCHEDULE : string := "schedule".
Definition OPTION_HOME : string := "home".
Definition OPTION_SLEEP : string := "sleep".
Definition OPTION_AWAY : string := "away".
Definition OPTION_CUSTOM : string := "custom".
Definition OPTION_FROZEN : string := "frozen".
Definition PRESET_HOME : string := "home".
Definition PRESET_SLEEP : string := "sleep".
Definition PRESET_AWAY : string := "away".
Definition PRESET_CUSTOM : string := "custom".
Definition PRESET_AUTO : string := "auto".
Definition PRESET_SCHEDULE : string := "schedule".

(** ** climate.py: the commands of CosaCoordinator *)

Section Commands.

Variable srv : server.

(** [self.async_request_refresh], inherited from Home Assistant's
    [DataUpdateCoordinator]: whatever it does to the coordinator and the
    session. *)
Variable async_request_refresh : io coordinator_state unit.

(** [async_set_mode] (lines 94-103). The arguments of [set_mode] are
    positional and given as [(endpoint_id, mode, option, token)]. Without an
    [else], a login result whose [ok] is falsy ends the method. *)
Definition async_set_mode (mode option : json) : io coordinator_state unit :=
  try_except
    (self ← get_self;
     _ ← await_api (CosaAPI.set_mode srv (_endpoint_id self) mode option (_token self));
     async_request_refresh)
    [(CosaAuthError,
       self ← get_self;
       login_result ← await_api (CosaAPI.login srv (_email self) (_password self));
       ok ← eval (py_get (JStr login_result) "ok" JNull);
       if py_truthy ok then
         token ← eval (py_get (JStr login_result) "token" JNull);
         _ ← set_token token;
         self ← get_self;
         _ ← await_api (CosaAPI.set_mode srv (_endpoint_id self) mode option (_token self));
         async_request_refresh
       else mret ())].

(** [async_set_temperatures] (lines 105-114). The arguments of
    [set_target_temperatures] are positional and given as
    [(endpoint_id, home, away, sleep, custom, token)]. *)
Definition async_set_temperatures (home away sleep custom : json) : io coordinator_state unit :=
  try_except
    (self ← get_self;
     _ ← await_api (CosaAPI.set_target_temperatures srv
                      (_endpoint_id self) home away sleep custom (_token self));
     async_request_refresh)
    [(CosaAuthError,
       self ← get_self;
       login_result ← await_api (CosaAPI.login srv (_email self) (_password self));
       ok ← eval (py_get (JStr login_result) "ok" JNull);
       if py_truthy ok then
         token ← eval (py_get (JStr login_result) "token" JNull);
         _ ← set_token token;
         self ← get_self;
         _ ← await_api (CosaAPI.set_target_temperatures srv
                          (_endpoint_id self) home away sleep custom (_token self));
         async_request_refresh
       else mret ())].

End Commands.

(** ** climate.py: class CosaClimate *)

(** Home Assistant's [HVACMode]; the entity declares [OFF] and [HEAT]. *)
Inductive HVACMode : Set := OFF | HEAT | COOL | HEAT_COOL | AUTO | DRY | FAN_ONLY.

#[global] Instance HVACMode_eq_dec : EqDecision HVACMode.
Proof. solve_decision. Defined.

(** The members of Home Assistant's [HVACAction] the entity names. *)
Inductive HVACAction : Set := HEATING | IDLE.

(** [homeassistant.const.ATTR_TEMPERATURE]. *)
Definition ATTR_TEMPERATURE : string := "temperature".

Module CosaClimate.

(** [_attr_hvac_modes] and [_attr_preset_modes] (lines 123-124). *)
Definition _attr_hvac_modes : list HVACMode := [OFF; HEAT].
Definition _attr_preset_modes : list string :=
  [PRESET_HOME; PRESET_SLEEP; PRESET_AWAY; PRESET_CUSTOM; PRESET_AUTO; PRESET_SCHEDULE].

(** The properties read [self.coordinator.data], the snapshot the platform
    stored after the last refresh ([None] before the first): it is their
    argument [data]. *)

(** [_endpoint] (lines 145-149). *)
Definition _endpoint (data : json) : outcome json :=
  if py_truthy data then py_get data "endpoint" (JDict ∅) else Return (JDict ∅).

(** [_forecast] (lines 151-155). *)
Definition _forecast (data : json) : outcome json :=
  if py_truthy data then py_get data "forecast" (JDict ∅) else Return (JDict ∅).

(** [self._endpoint.get(key, dflt)]. *)
Definition endpoint_get (data : json) (key : string) (dflt : json) : outcome json :=
  endpoint ← _endpoint data;
  py_get endpoint key dflt.

(** [current_temperature] (lines 157-159). *)
Definition current_temperature (data : json) : outcome json :=
  endpoint_get data "temperature" JNull.

(** [target_temperature] (lines 166-168). *)
Definition target_temperature (data : json) : outcome json :=
  endpoint_get data "targetTemperature" JNull.

(** [hvac_mode] (lines 170-177). *)
Definition hvac_mode (data : json) : outcome HVACMode :=
  mode ← endpoint_get data "mode" JNull;
  if py_eq_str mode MODE_MANUAL then
    option ← endpoint_get data "option" JNull;
    if py_eq_str option OPTION_FROZEN then Return OFF else Return HEAT
  else Return HEAT.

(** [hvac_action] (lines 179-184). *)
Definition hvac_action (data : json) : outcome HVACAction :=
  combi_state ← endpoint_get data "combiState" JNull;
  if py_eq_str combi_state "on" then Return HEATING else Return IDLE.

(** [preset_mode] (lines 186-197). *)
Definition preset_mode (data : json) : outcome json :=
  mode ← endpoint_get data "mode" JNull;
  option ← endpoint_get data "option" JNull;
  if py_eq_str mode MODE_SCHEDULE then Return (JStr PRESET_SCHEDULE)
  else if py_eq_str mode MODE_AUTO then Return (JStr PRESET_AUTO)
  else if py_eq_str mode MODE_MANUAL then Return option
  else Return option.

(** [extra_state_attributes] (lines 244-267); the entries of the dict display
    are evaluated in the order written, and the sixteen of them are inserted
    into one dict. *)
Definition extra_state_attributes (data : json) : outcome (gmap string json) :=
  device ← endpoint_get data "device" (JDict ∅);
  forecast ← _forecast data;
  forecast_data ← py_get forecast "hourly" (JList [JDict ∅]);
  current_weather ← first_or_empty forecast_data;
  mode ← endpoint_get data "mode" JNull;
  option ← endpoint_get data "option" JNull;
  combi_state ← endpoint_get data "combiState" JNull;
  home_temperature ← endpoint_get data "homeTemperature" JNull;
  away_temperature ← endpoint_get data "awayTemperature" JNull;
  sleep_temperature ← endpoint_get data "sleepTemperature" JNull;
  custom_temperature ← endpoint_get data "customTemperature" JNull;
  firmware_version ← py_get device "version" JNull;
  battery_voltage ← endpoint_get data "batteryVoltage" JNull;
  power_state ← endpoint_get data "powerState" JNull;
  rssi ← endpoint_get data "rssi" JNull;
  child_lock ← endpoint_get data "childLock" JNull;
  open_window_state ← endpoint_get data "openWindowState" JNull;
  outdoor_temperature ← py_get current_weather "temperature" JNull;
  outdoor_humidity ← py_get current_weather "humidity" JNull;
  weather_icon ← py_get current_weather "icon" JNull;
  Return
    (<["mode" := mode]> (<["option" := option]> (<["combi_state" := combi_state]>
    {[ "home_temperature" := home_temperature;
       "away_temperature" := away_temperature;
       "sleep_temperature" := sleep_temperature;
       "custom_temperature" := custom_temperature;
       "firmware_version" := firmware_version;
       "battery_voltage" := battery_voltage;
       "power_state" := power_state;
       "rssi" := rssi;
       "child_lock" := child_lock;
       "open_window_state" := open_window_state;
       "outdoor_temperature" := outdoor_temperature;
       "outdoor_humidity" := outdoor_humidity;
       "weather_icon" := weather_icon ]}))).

Section Services.

Variable srv : server.
Variable async_request_refresh : io coordinator_state unit.

(** [async_set_hvac_mode] (lines 199-203). *)
Definition async_set_hvac_mode (hvac_mode : HVACMode) : io coordinator_state unit :=
  if decide (hvac_mode = OFF) then
    async_set_mode srv async_request_refresh (JStr MODE_MANUAL) (JStr OPTION_FROZEN)
  else
    async_set_mode srv async_request_refresh (JStr MODE_MANUAL) (JStr OPTION_HOME).

(** [async_set_preset_mode] (lines 205-211); [async_set_mode(mode)] leaves
    [option] at its default [None]. *)
Definition async_set_preset_mode (preset_mode : json) : io coordinator_state unit :=
  if py_eq_str preset_mode PRESET_SCHEDULE then
    async_set_mode srv async_request_refresh (JStr MODE_SCHEDULE) JNull
  else if py_eq_str preset_mode PRESET_AUTO then
    async_set_mode srv async_request_refresh (JStr MODE_AUTO) JNull
  else
    async_set_mode srv async_request_refresh (JStr MODE_MANUAL) preset_mode.

(** The four setpoints [async_set_temperature] passes on (lines 225-234):
    the one named by the option is replaced, [home] for any other option. *)
Definition replace_setpoint (option temperature home away sleep custom : json)
    : json * json * json * json :=
  if py_eq_str option OPTION_HOME then (temperature, away, sleep, custom)
  else if py_eq_str option OPTION_AWAY then (home, temperature, sleep, custom)
  else if py_eq_str option OPTION_SLEEP then (home, away, temperature, custom)
  else if py_eq_str option OPTION_CUSTOM then (home, away, sleep, temperature)
  else (temperature, away, sleep, custom).

(** [async_set_temperature] (lines 213-236), with [kwargs] as a dict. *)
Definition async_set_temperature (data : json) (kwargs : gmap string json)
    : io coordinator_state unit :=
  let temperature := default JNull (kwargs !! ATTR_TEMPERATURE) in
  match temperature with
  | JNull => mret ()
  | _ =>
      option ← eval (endpoint_get data "option" (JStr OPTION_HOME));
      home ← eval (endpoint_get data "homeTemperature" (JInt 21));
      away ← eval (endpoint_get data "awayTemperature" (JInt 15));
      sleep ← eval (endpoint_get data "sleepTemperature" (JInt 19));
      custom ← eval (endpoint_get data "customTemperature" (JInt 20));
      let '(home, away, sleep, custom) :=
        replace_setpoint option temperature home away sleep custom in
      async_set_temperatures srv async_request_refresh home away sleep custom
  end.

(** [async_turn_on] and [async_turn_off] (lines 238-242). *)
Definition async_turn_on : io coordinator_state unit := async_set_hvac_mode HEAT.
Definition async_turn_off : io coordinator_state unit := async_set_hvac_mode OFF.

End Services.
End CosaClimate.

(** ** Vocabulary of the statements *)

(** A call of one of the five client operations, with its arguments. *)
Inductive api_call : Type :=
  | Login (email password : json)
  | GetEndpoints (token : json)
  | GetEndpointDetail (token endpoint_id : json)
  | SetMode (token endpoint_id mode option : json)
  | SetTargetTemperatures (token endpoint_id home away sleep custom : json).

(** The request the call sends. *)
Definition request_of (c : api_call) : request :=
  match c with
  | Login email password => CosaAPI.login_request email password
  | GetEndpoints token => CosaAPI.get_endpoints_request token
  | GetEndpointDetail token endpoint_id =>
      CosaAPI.get_endpoint_detail_request token endpoint_id
  | SetMode token endpoint_id mode option =>
      CosaAPI.set_mode_request token endpoint_id mode option
  | SetTargetTemperatures token endpoint_id home away sleep custom =>
      CosaAPI.set_target_temperatures_request token endpoint_id home away sleep custom
  end.

(** The class of the exception a computation ends with, if it raises. *)
Definition raised {S A} (m : io S A) (s : S) : option exc_class :=
  match fst (m s) with
  | Return _ => None
  | Raise e => Some e
  end.

(** What the call raises against [srv] when the session log is [sent]. *)
Definition call_raises (srv : server) (c : api_call) (sent : session) : option exc_class :=
  match c with
  | Login email password => raised (CosaAPI.login srv email password) sent
  | GetEndpoints token => raised (CosaAPI.get_endpoints srv token) sent
  | GetEndpointDetail token endpoint_id =>
      raised (CosaAPI.get_endpoint_detail srv token endpoint_id) sent
  | SetMode token endpoint_id mode option =>
      raised (CosaAPI.set_mode srv token endpoint_id mode option) sent
  | SetTargetTemperatures token endpoint_id home away sleep custom =>
      raised (CosaAPI.set_target_temperatures srv token endpoint_id home away sleep custom) sent
  end.

Definition is_login (c : api_call) : bool :=
  match c with
  | Login _ _ => true
  | _ => false
  end.


(** The string held by field [k] of a dict, if it holds one. *)
Definition string_field (d : gmap string json) (k : string) : option string :=
  match d !! k with
  | Some (JStr s) => Some s
  | _ => None
  end.

(** The same under the [data] wrapper, when the wrapper is a dict. *)
Definition wrapped_string_field (d : gmap string json) (k : string) : option string :=
  match d !! "data" with
  | Some (JDict inner) => string_field inner k
  | _ => None
  end.

(** The strings held by the supported token fields of a login body: the
    top-level fields first, then those under [data]. *)
Definition token_fields (d : gmap string json) : list string :=
  omap (string_field d) CosaAPI.token_keys ++ omap (wrapped_string_field d) CosaAPI.token_keys.

(** The values [len] accepts. *)
Definition has_len (v : json) : bool :=
  match v with
  | JStr _ | JList _ | JDict _ => true
  | _ => false
  end.

(** The record has no usable [targetTemperature]: the key is absent or null. *)
Definition target_missing (endpoint : gmap string json) : bool :=
  match endpoint !! "targetTemperature" with
  | None | Some JNull => true
  | _ => false
  end.

(** The record's current option, ["home"] when the key is absent. *)
Definition current_option (endpoint : gmap string json) : json :=
  default (JStr "home") (endpoint !! "option").

(** A device record as the data model has it: its option is a string (the
    [OPTION_*] names of const.py, ["option": "sleep"] in the docstring of
    [extract_endpoint_state]) or the key is absent. *)
Definition documented_option (endpoint : gmap string json) : bool :=
  match endpoint !! "option" with
  | None | Some (JStr _) => true
  | _ => false
  end.

(** The values that cannot be dict keys. *)
Definition unhashable (v : json) : bool :=
  match v with
  | JList _ | JDict _ => true
  | _ => false
  end.

(** The records [extract_endpoint_state] normalises without raising: the
    option is looked up in the setpoints only when no target is given. *)
Definition normalisable (endpoint : gmap string json) : bool :=
  negb (target_missing endpoint && unhashable (current_option endpoint)).

(** Success of a mutating call: HTTP 200 and a decoded body without [ok == 0]. *)
Definition accepted (r : response) : bool :=
  (status r =? 200)%Z &&
  match decoding r with
  | Body v => negb (ok_is_zero v)
  | Undecodable _ => false
  end.

(** An argument declared [Optional[str]]: [None] or a string. *)
Definition optional_str (o : option string) : json :=
  match o with
  | None => JNull
  | Some s => JStr s
  end.

(** ** Servers and records used as concrete inputs *)

(** A server that gives the same answer to every request. *)
Definition always (r : response) : server := fun _ _ => Responds r.


(** HTTP 401. *)
Definition unauthorized : response := Response 401 (Body JNull).

(** HTTP 200 with [{"endpoints": null}]. *)
Definition null_endpoints_body : gmap string json := {[ "endpoints" := JNull ]}.
Definition null_endpoints_200 : response := Response 200 (Body (JDict null_endpoints_body)).

(** HTTP 200 with [{"ok": 1}]. *)
Definition ok_body : gmap string json := {[ "ok" := JInt 1 ]}.
Definition ok_200 : response := Response 200 (Body (JDict ok_body)).

(** HTTP 200 with [{"endpoints": [{"id": "end_001"}], "ok": 1}]. *)
Definition one_endpoint : json := JList [JDict {[ "id" := JStr "end_001" ]}].
Definition endpoints_body : gmap string json :=
  {[ "endpoints" := one_endpoint; "ok" := JInt 1 ]}.
Definition endpoints_200 : response := Response 200 (Body (JDict endpoints_body)).

(** HTTP 200 with [{"endpoint": {"id": "end_001", "temperature": 20.5}}]. *)
Definition detail_record : json :=
  JDict {[ "id" := JStr "end_001"; "temperature" := JFloat 20.5 ]}.
Definition detail_body : gmap string json := {[ "endpoint" := detail_record ]}.
Definition detail_200 : response := Response 200 (Body (JDict detail_body)).

(** HTTP 200 login bodies: [{"token": ""}], the wrapped
    [{"success": true, "data": {"authToken": "SAMPLETOKEN123"}}] and
    [{"authtoken": "T2"}]. *)
Definition empty_token_body : gmap string json := {[ "token" := JStr "" ]}.
Definition empty_token_200 : response := Response 200 (Body (JDict empty_token_body)).
Definition wrapped_token_body : gmap string json :=
  {[ "success" := JBool true;
     "data" := JDict {[ "authToken" := JStr "SAMPLETOKEN123" ]} ]}.
Definition wrapped_token_200 : response := Response 200 (Body (JDict wrapped_token_body)).
Definition fresh_token_200 : response :=
  Response 200 (Body (JDict {[ "authtoken" := JStr "T2" ]})).

(** A server whose first answer is HTTP 401 and which accepts every login
    after that with a fresh token. *)
Definition expired_then_login : server :=
  fun sent _ =>
    match sent with
    | [] => Responds unauthorized
    | _ => Responds fresh_token_200
    end.

(** A coordinator as [__init__] leaves it, without a place id. *)
Definition home_coordinator : CosaCoordinator :=
  Coordinator (JStr "user@example.com") (JStr "secret") (JStr "T1")
              (JStr "end_001") (JStr "Evim") JNull.

(** Device records: a detailed one, and one in list shape with option
    [frozen]. *)
Definition detailed_record : gmap string json :=
  {[ "homeTemperature" := JInt 22; "awayTemperature" := JInt 16;
     "sleepTemperature" := JInt 18; "customTemperature" := JInt 20;
     "option" := JStr "away" ]}.
Definition frozen_record : gmap string json :=
  {[ "mode" := JStr "manual"; "option" := JStr "frozen" ]}.

(** ** Vocabulary of the further statements *)

(** The session log the call leaves. *)
Definition call_session (srv : server) (c : api_call) (sent : session) : session :=
  match c with
  | Login email password => snd (CosaAPI.login srv email password sent)
  | GetEndpoints token => snd (CosaAPI.get_endpoints srv token sent)
  | GetEndpointDetail token endpoint_id =>
      snd (CosaAPI.get_endpoint_detail srv token endpoint_id sent)
  | SetMode token endpoint_id mode option =>
      snd (CosaAPI.set_mode srv token endpoint_id mode option sent)
  | SetTargetTemperatures token endpoint_id home away sleep custom =>
      snd (CosaAPI.set_target_temperatures srv token endpoint_id home away sleep custom sent)
  end.

(** The result of a computation seen as a value. *)
Definition outcome_map {A B} (f : A -> B) (o : outcome A) : outcome B :=
  match o with
  | Return a => Return (f a)
  | Raise e => Raise e
  end.

(** What the call returns or raises: the token of [login] as a [str], the
    [True] of a mutating call as a [bool]. *)
Definition call_outcome (srv : server) (c : api_call) (sent : session) : outcome json :=
  match c with
  | Login email password => outcome_map JStr (fst (CosaAPI.login srv email password sent))
  | GetEndpoints token => fst (CosaAPI.get_endpoints srv token sent)
  | GetEndpointDetail token endpoint_id =>
      fst (CosaAPI.get_endpoint_detail srv token endpoint_id sent)
  | SetMode token endpoint_id mode option =>
      outcome_map JBool (fst (CosaAPI.set_mode srv token endpoint_id mode option sent))
  | SetTargetTemperatures token endpoint_id home away sleep custom =>
      outcome_map JBool
        (fst (CosaAPI.set_target_temperatures srv token endpoint_id home away sleep custom sent))
  end.

(** The token argument of an authenticated call. *)
Definition token_of (c : api_call) : option json :=
  match c with
  | Login _ _ => None
  | GetEndpoints token => Some token
  | GetEndpointDetail token _ => Some token
  | SetMode token _ _ _ => Some token
  | SetTargetTemperatures token _ _ _ _ _ => Some token
  end.

(** The two reading calls, which look into the body when it is not a
    failure. *)
Definition reads_body (c : api_call) : bool :=
  match c with
  | GetEndpoints _ | GetEndpointDetail _ _ => true
  | _ => false
  end.

Definition is_dict (v : json) : bool :=
  match v with
  | JDict _ => true
  | _ => false
  end.

(** ** Further concrete inputs *)

(** HTTP 503, and HTTP 200 with a body that is malformed JSON. *)
Definition unavailable : response := Response 503 (Body JNull).

(** HTTP 200 with the list [["ok"]] as body. *)
Definition list_200 : response := Response 200 (Body (JList [JStr "ok"])).

(** A server that cannot be reached. *)
Definition unreachable : server := fun _ _ => Fails ConnectionFailed.

(** HTTP 200 login body with two tokens,
    [{"token": "first", "data": {"authtoken": "second"}}]. *)
Definition two_tokens_body : gmap string json :=
  {[ "token" := JStr "first"; "data" := JDict {[ "authtoken" := JStr "second" ]} ]}.
Definition two_tokens_200 : response := Response 200 (Body (JDict two_tokens_body)).

(** A coordinator with a place id. *)
Definition placed_coordinator : CosaCoordinator :=
  Coordinator (JStr "user@example.com") (JStr "secret") (JStr "T1")
              (JStr "end_001") (JStr "Evim") (JStr "place_9").

(** A refresh request that does nothing, as the test stub of
    [DataUpdateCoordinator] has it. *)
Definition no_refresh : io coordinator_state unit := mret ().

(** Snapshots as a refresh stores them: a manual record switched off, and a
    record with a setpoint for [away]. *)
Definition frozen_snapshot : json :=
  JDict {[ "endpoint" := JDict {[ "mode" := JStr "manual"; "option" := JStr "frozen" ]};
           "forecast" := JDict ∅ ]}.
Definition away_snapshot : json :=
  JDict {[ "endpoint" :=
             JDict {[ "option" := JStr "away"; "homeTemperature" := JInt 22;
                      "awayTemperature" := JInt 16 ]};
           "forecast" := JDict ∅ ]}.

(** The optional fields of a device record that [extract_endpoint_state]
    copies: the key in the record, the key in the state, the default. *)
Definition copied_fields : list (string * string * json) :=
  [ ("name", "name", JStr "COSA Termostat");
    ("temperature", "temperature", JNull);
    ("humidity", "humidity", JNull);
    ("mode", "mode", JStr "manual");
    ("option", "option", JStr "home");
    ("combiState", "combi_state", JStr "off");
    ("isConnected", "is_connected", JBool false);
    ("operationMode", "operation_mode", JStr "heating") ].

(** The keys of a normalised state. *)
Definition state_keys : gset string :=
  {[ "endpoint_id"; "name"; "temperature"; "humidity"; "target_temperature"; "mode";
     "option"; "combi_state"; "is_connected"; "operation_mode"; "target_temperatures" ]}.

(** A record with an empty [id] and an [_id]. *)
Definition underscore_id_record : gmap string json :=
  {[ "id" := JStr ""; "_id" := JStr "66e06d3edac55e12009be544" ]}.

(** A computation that leaves the coordinator's session log extended, never
    shortened or rewritten. *)
Definition extends_log (m : io coordinator_state unit) : Prop :=
  forall st : coordinator_state, exists more : session, snd (snd (m st)) = snd st ++ more.

(** The snapshot a successful refresh stores for a record. *)
Definition stored_snapshot (e : gmap string json) : json :=
  JDict {[ "endpoint" := JDict e; "forecast" := JDict ∅ ]}.

(** The keys of the extra state attributes. *)
Definition attribute_keys : gset string :=
  {[ "mode"; "option"; "combi_state"; "home_temperature"; "away_temperature";
     "sleep_temperature"; "custom_temperature"; "firmware_version"; "battery_voltage";
     "power_state"; "rssi"; "child_lock"; "open_window_state"; "outdoor_temperature";
     "outdoor_humidity"; "weather_icon" ]}.

(** The record fields [extra_state_attributes] copies: the key in the record
    and the key of the attribute. *)
Definition copied_attributes : list (string * string) :=
  [ ("mode", "mode");
    ("option", "option");
    ("combiState", "combi_state");
    ("homeTemperature", "home_temperature");
    ("awayTemperature", "away_temperature");
    ("sleepTemperature", "sleep_temperature");
    ("customTemperature", "custom_temperature");
    ("batteryVoltage", "battery_voltage");
    ("powerState", "power_state");
    ("rssi", "rssi");
    ("childLock", "child_lock");
    ("openWindowState", "open_window_state") ].

(** Records for the attributes: one in list shape whose [device] is an id
    string, one with a [device] object. *)
Definition listed_record : gmap string json :=
  {[ "id" := JStr "66e06d3edac55e12009be544";
     "device" := JStr "65a14f74774cc50932c98980";
     "option" := JStr "home"; "mode" := JStr "schedule" ]}.
Definition versioned_record : gmap string json :=
  {[ "device" := JDict {[ "version" := JStr "1.4.2" ]}; "combiState" := JStr "on" ]}.

(** A record in manual mode with the sleep option. *)
Definition sleep_record : gmap string json :=
  {[ "mode" := JStr "manual"; "option" := JStr "sleep" ]}.

(** * Properties *)

(** ** Python's comparisons and classes on sample values *)

Example false_equals_zero : py_eq_int (JBool false) 0 = true.
Proof. reflexivity. Qed.

Example negative_zero_equals_zero : py_eq_int (JFloat (-0.0)) 0 = true.
Proof. reflexivity. Qed.

Example float_code_equals_111 : py_eq_int (JFloat 111.0) 111 = true.
Proof. reflexivity. Qed.

Example string_zero_differs_from_zero : py_eq_int (JStr "0") 0 = false.
Proof. reflexivity. Qed.

Example missing_ok_is_not_zero : ok_is_zero (JDict ∅) = false.
Proof. reflexivity. Qed.

Example content_type_error_is_client_error : issubclass ContentTypeError ClientError = true.
Proof. reflexivity. Qed.

Example timeout_is_not_client_error : issubclass TimeoutError ClientError = false.
Proof. reflexivity. Qed.

Example key_in_list_then_index_raises :
  CosaAPI._extract_token (JList [JStr "token"]) = Raise TypeError.
Proof. reflexivity. Qed.

(** ** Running a computation *)

Lemma post_responds (srv : server) (req : request) (sent : session) (r : response) :
  srv sent req = Responds r ->
  post srv req sent = (Return r, sent ++ [req]).
Proof. intros Hsrv. unfold post. now rewrite Hsrv. Qed.

Lemma try_except_caught {S A} (body : io S A) clauses (s s' : S) (e : exc_class) (h : io S A) :
  body s = (Raise e, s') ->
  select_handler e clauses = Some h ->
  try_except body clauses s = h s'.
Proof. intros Hb Hh. unfold try_except. now rewrite Hb, Hh. Qed.

(** Unfolds one layer of the monad in the goal. *)
Ltac io_unfold :=
  unfold try_except, mbind, io_bind, mret, io_ret, raise, eval, response_json.

(** ** C5: get_endpoint_detail *)

Section Detail.
Variable srv : server.
Variables token endpoint_id : json.
Variable sent : session.
Variable r : response.
Variable d : gmap string json.

Hypothesis Hexchange :
  srv sent (CosaAPI.get_endpoint_detail_request token endpoint_id) = Responds r.
Hypothesis Hstatus : status r = 200%Z.
Hypothesis Hbody : decoding r = Body (JDict d).
Hypothesis Hok : ok_is_zero (JDict d) = false.

(** C5. On an HTTP 200 response whose body is a dict without [ok == 0],
    [get_endpoint_detail] returns the value under the body's ["endpoint"] key
    when the key is present, and the body dict itself otherwise. *)
Theorem get_endpoint_detail_unwraps :
  CosaAPI.get_endpoint_detail srv token endpoint_id sent =
    (Return (match d !! "endpoint" with Some v => v | None => JDict d end),
     sent ++ [CosaAPI.get_endpoint_detail_request token endpoint_id]).
Proof.
  unfold CosaAPI.get_endpoint_detail. io_unfold.
  rewrite (post_responds _ _ _ _ Hexchange), Hstatus, Hbody. cbn [Z.eqb Pos.eqb negb].
  rewrite Hok. unfold py_get. now destruct (d !! "endpoint").
Qed.

End Detail.

Lemma get_endpoint_detail_unwraps_witness :
  CosaAPI.get_endpoint_detail (always detail_200) (JStr "T1") (JStr "end_001") [] =
    (Return detail_record,
     [CosaAPI.get_endpoint_detail_request (JStr "T1") (JStr "end_001")]).
Proof.
  exact (get_endpoint_detail_unwraps (always detail_200) (JStr "T1") (JStr "end_001") []
           detail_200 detail_body eq_refl eq_refl eq_refl eq_refl).
Defined.

(** ** C1: classification of rejected calls *)






(** ** C4: get_endpoints *)

(** C4, as the code has it. On an HTTP 200 response whose body is a dict
    without [ok == 0], [get_endpoints] returns the empty list when the body
    has no ["endpoints"] key, and returns the value under that key unchanged
    when the value has a length (a list, a dict or a string). *)
Theorem get_endpoints_result
    (srv : server) (token : json) (sent : session) (r : response) (d : gmap string json) :
  srv sent (CosaAPI.get_endpoints_request token) = Responds r ->
  status r = 200%Z ->
  decoding r = Body (JDict d) ->
  ok_is_zero (JDict d) = false ->
  (d !! "endpoints" = None ->
     CosaAPI.get_endpoints srv token sent =
       (Return (JList []), sent ++ [CosaAPI.get_endpoints_request token])) /\
  (forall v : json,
     d !! "endpoints" = Some v ->
     has_len v = true ->
     CosaAPI.get_endpoints srv token sent =
       (Return v, sent ++ [CosaAPI.get_endpoints_request token])).
Proof.
  intros Hsrv Hst Hbody Hok.
  assert (Hrun : CosaAPI.get_endpoints srv token sent =
            (let v := default (JList []) (d !! "endpoints") in
             if has_len v then Return v else Raise TypeError,
             sent ++ [CosaAPI.get_endpoints_request token])).
  { unfold CosaAPI.get_endpoints. io_unfold.
    rewrite (post_responds _ _ _ _ Hsrv), Hst, Hbody. cbn [Z.eqb Pos.eqb negb].
    rewrite Hok. unfold py_get.
    destruct (default (JList []) (d !! "endpoints")); reflexivity. }
  split.
  - intros Hnone. rewrite Hrun, Hnone. reflexivity.
  - intros v Hsome Hlen. rewrite Hrun, Hsome. cbn [default from_option id].
    now rewrite Hlen.
Qed.

Lemma get_endpoints_result_witness :
  CosaAPI.get_endpoints (always endpoints_200) (JStr "T1") [] =
    (Return one_endpoint, [CosaAPI.get_endpoints_request (JStr "T1")]) /\
  CosaAPI.get_endpoints (always ok_200) (JStr "T1") [] =
    (Return (JList []), [CosaAPI.get_endpoints_request (JStr "T1")]).
Proof.
  split.
  - exact (proj2 (get_endpoints_result (always endpoints_200) (JStr "T1") [] endpoints_200
                    endpoints_body eq_refl eq_refl eq_refl eq_refl)
                 one_endpoint eq_refl eq_refl).
  - exact (proj1 (get_endpoints_result (always ok_200) (JStr "T1") [] ok_200
                    ok_body eq_refl eq_refl eq_refl eq_refl)
                 eq_refl).
Defined.

(** C4 as stated fails: with [{"endpoints": null}] the key is present, and
    the call raises [TypeError] from [len(endpoints)] instead of returning the
    value. *)
Lemma null_endpoints_raise :
  status null_endpoints_200 = 200%Z /\
  decoding null_endpoints_200 = Body (JDict null_endpoints_body) /\
  ok_is_zero (JDict null_endpoints_body) = false /\
  null_endpoints_body !! "endpoints" = Some JNull /\
  CosaAPI.get_endpoints (always null_endpoints_200) (JStr "T1") [] =
    (Raise TypeError, [CosaAPI.get_endpoints_request (JStr "T1")]).
Proof. repeat split. Qed.

(** ** C3: login and the token fields *)

Lemma find_token_dict (keys : list string) (d : gmap string json) :
  CosaAPI.find_token keys (JDict d) = Return (head (omap (string_field d) keys)).
Proof.
  induction keys as [|key rest IH]; [reflexivity|].
  cbn [CosaAPI.find_token omap list_omap py_contains py_getitem mbind outcome_bind].
  unfold string_field at 1.
  destruct (d !! key) as [v|] eqn:Hkey.
  - rewrite bool_decide_true by eauto.
    destruct v; cbn [head]; first [exact IH | reflexivity].
  - rewrite bool_decide_false by (intros [? ?]; discriminate).
    exact IH.
Qed.

Lemma wrapped_fields (d inner : gmap string json) (keys : list string) :
  d !! "data" = Some (JDict inner) ->
  omap (wrapped_string_field d) keys = omap (string_field inner) keys.
Proof.
  intros Hdata. induction keys as [|key rest IH]; [reflexivity|].
  cbn [omap list_omap]. unfold wrapped_string_field at 1. rewrite Hdata, IH. reflexivity.
Qed.

Lemma unwrapped_fields (d : gmap string json) (keys : list string) :
  (forall inner, d !! "data" <> Some (JDict inner)) ->
  omap (wrapped_string_field d) keys = [].
Proof.
  intros Hdata. induction keys as [|key rest IH]; [reflexivity|].
  cbn [omap list_omap]. unfold wrapped_string_field at 1.
  destruct (d !! "data") as [[]|]; try exact IH.
  now exfalso; eapply Hdata.
Qed.

(** [_extract_token] on a dict returns the first string among the token
    fields, top-level fields first. *)
Lemma extract_token_dict (d : gmap string json) :
  CosaAPI._extract_token (JDict d) = Return (head (token_fields d)).
Proof.
  unfold CosaAPI._extract_token, token_fields. rewrite find_token_dict.
  cbn [mbind outcome_bind].
  destruct (omap (string_field d) CosaAPI.token_keys) as [|s rest]; [|reflexivity].
  cbn [head app py_contains py_getitem].
  destruct (d !! "data") as [v|] eqn:Hdata.
  - rewrite bool_decide_true by eauto.
    destruct v;
      try (rewrite unwrapped_fields by (intros ?; rewrite Hdata; discriminate); reflexivity).
    rewrite (wrapped_fields _ _ _ Hdata). apply find_token_dict.
  - rewrite bool_decide_false by (intros [? ?]; discriminate).
    rewrite unwrapped_fields by (intros ?; rewrite Hdata; discriminate). reflexivity.
Qed.

(** [login] on a 200 response with a dict body without [ok == 0]. *)
Lemma login_on_success_body
    (srv : server) (email password : json) (sent : session) (r : response)
    (d : gmap string json) :
  srv sent (CosaAPI.login_request email password) = Responds r ->
  status r = 200%Z ->
  decoding r = Body (JDict d) ->
  ok_is_zero (JDict d) = false ->
  CosaAPI.login srv email password sent =
    (match head (token_fields d) with
     | Some t => if String.eqb t "" then Raise CosaAPIError else Return t
     | None => Raise CosaAPIError
     end,
     sent ++ [CosaAPI.login_request email password]).
Proof.
  intros Hsrv Hst Hbody Hok.
  unfold CosaAPI.login. io_unfold.
  rewrite (post_responds _ _ _ _ Hsrv), Hst, Hbody. cbn [Z.eqb Pos.eqb negb].
  rewrite Hok, extract_token_dict.
  destruct (head (token_fields d)) as [t|]; [|reflexivity].
  destruct (String.eqb t ""); reflexivity.
Qed.

(** C3, as the code has it. On a successful login response (HTTP 200, a dict
    body without [ok == 0]) in which exactly one of the supported token
    fields, top-level or under [data], holds a string, [login] returns that
    string provided it is not empty; when none of the fields holds a string,
    [login] raises [CosaAPIError]. *)
Theorem login_extracts_token
    (srv : server) (email password : json) (sent : session) (r : response)
    (d : gmap string json) :
  srv sent (CosaAPI.login_request email password) = Responds r ->
  status r = 200%Z ->
  decoding r = Body (JDict d) ->
  ok_is_zero (JDict d) = false ->
  (forall t : string,
     token_fields d = [t] ->
     t <> "" ->
     CosaAPI.login srv email password sent =
       (Return t, sent ++ [CosaAPI.login_request email password])) /\
  (token_fields d = [] ->
     CosaAPI.login srv email password sent =
       (Raise CosaAPIError, sent ++ [CosaAPI.login_request email password])).
Proof.
  intros Hsrv Hst Hbody Hok.
  pose proof (login_on_success_body _ _ _ _ _ _ Hsrv Hst Hbody Hok) as Hrun.
  split.
  - intros t Hone Hne. rewrite Hrun, Hone. cbn [head].
    destruct (String.eqb_spec t ""); [contradiction|reflexivity].
  - intros Hnone. rewrite Hrun, Hnone. reflexivity.
Qed.

Lemma login_extracts_token_witness :
  CosaAPI.login (always wrapped_token_200) (JStr "test@example.com") (JStr "testpass") [] =
    (Return "SAMPLETOKEN123",
     [CosaAPI.login_request (JStr "test@example.com") (JStr "testpass")]) /\
  CosaAPI.login (always ok_200) (JStr "test@example.com") (JStr "testpass") [] =
    (Raise CosaAPIError,
     [CosaAPI.login_request (JStr "test@example.com") (JStr "testpass")]).
Proof.
  split.
  - refine (proj1 (login_extracts_token (always wrapped_token_200) (JStr "test@example.com")
                     (JStr "testpass") [] wrapped_token_200 wrapped_token_body
                     eq_refl eq_refl eq_refl eq_refl)
                  "SAMPLETOKEN123" eq_refl _).
    discriminate.
  - exact (proj2 (login_extracts_token (always ok_200) (JStr "test@example.com")
                    (JStr "testpass") [] ok_200 ok_body eq_refl eq_refl eq_refl eq_refl)
                 eq_refl).
Defined.

(** C3 as stated fails: in [{"token": ""}] exactly one token field holds a
    string, and [login] raises [CosaAPIError] instead of returning it. *)
Lemma empty_token_is_rejected :
  status empty_token_200 = 200%Z /\
  decoding empty_token_200 = Body (JDict empty_token_body) /\
  ok_is_zero (JDict empty_token_body) = false /\
  token_fields empty_token_body = [""] /\
  CosaAPI.login (always empty_token_200) (JStr "test@example.com") (JStr "testpass") [] =
    (Raise CosaAPIError,
     [CosaAPI.login_request (JStr "test@example.com") (JStr "testpass")]).
Proof. repeat split. Qed.

(** ** C6 and C7: the mutating calls *)

(** The two mutating operations share their text after the request is built:
    post, classify the status, decode, test the failure flag, return [True]. *)
Lemma acknowledged_accepted (srv : server) (req : request) (sent : session) (r : response) :
  srv sent req = Responds r ->
  accepted r = true ->
  fst (try_except
         (response ← post srv req;
          if (status response =? 401)%Z then raise CosaAuthError
          else if negb (status response =? 200)%Z then raise CosaAPIError
          else
            data ← eval (response_json response);
            if ok_is_zero data then
              error_code ← eval (py_get data "code" (JStr "unknown"));
              raise CosaAPIError
            else mret true)
         [(ClientError, raise CosaAPIError)] sent) = Return true.
Proof.
  intros Hsrv Hacc. unfold accepted in Hacc.
  apply andb_prop in Hacc as [Hst Hbody]. apply Z.eqb_eq in Hst.
  io_unfold.
  rewrite (post_responds _ _ _ _ Hsrv), Hst. cbn [Z.eqb Pos.eqb negb].
  destruct (decoding r) as [v|f]; [|discriminate].
  apply negb_true_iff in Hbody. now rewrite Hbody.
Qed.

Lemma acknowledged_run (srv : server) (req : request) (sent : session) :
  let run :=
    try_except
      (response ← post srv req;
       if (status response =? 401)%Z then raise CosaAuthError
       else if negb (status response =? 200)%Z then raise CosaAPIError
       else
         data ← eval (response_json response);
         if ok_is_zero data then
           error_code ← eval (py_get data "code" (JStr "unknown"));
           raise CosaAPIError
         else mret true)
      [(ClientError, raise CosaAPIError)] sent in
  snd run = sent ++ [req] /\ forall b : bool, fst run = Return b -> b = true.
Proof.
  cbv zeta. io_unfold. unfold post.
  destruct (srv sent req) as [[]|[st [v|[]]]]; cbn [transport_exception decoding status];
    try (split; [reflexivity | intros b; discriminate]).
  all: destruct (st =? 401)%Z; [split; [reflexivity | intros b; discriminate]|].
  all: destruct (st =? 200)%Z; cbn [negb];
    [|split; [reflexivity | intros b; discriminate]].
  all: try (split; [reflexivity | intros b; discriminate]).
  destruct (ok_is_zero v).
  - destruct (py_get v "code" (JStr "unknown")) as [c|e]; cbn [fst snd];
      try (split; [reflexivity | intros b; discriminate]).
    destruct e; split; first [reflexivity | intros b; discriminate].
  - split; [reflexivity | now intros b [= <-]].
Qed.

Lemma optional_str_truthy (opt : option string) :
  py_truthy (optional_str opt) = true <-> exists s, opt = Some s /\ s <> "".
Proof.
  destruct opt as [s|]; cbn [optional_str py_truthy].
  - destruct (String.eqb_spec s "") as [->|Hne]; cbn [negb]; split.
    + discriminate.
    + intros (s' & [= <-] & Hs'). contradiction.
    + eauto.
    + reflexivity.
  - split; [discriminate | intros (s & Hs & _); discriminate].
Qed.

(** The three keys of the payload of [set_mode]. *)
Lemma set_mode_payload_lookups (endpoint_id mode option : json) :
  CosaAPI.set_mode_payload endpoint_id mode option !! "endpoint" = Some endpoint_id /\
  CosaAPI.set_mode_payload endpoint_id mode option !! "mode" = Some mode /\
  CosaAPI.set_mode_payload endpoint_id mode option !! "option" =
    (if py_truthy option then Some option else None).
Proof.
  unfold CosaAPI.set_mode_payload.
  destruct (py_truthy option); repeat split; vm_compute; reflexivity.
Qed.

(** C6. [set_mode] sends one request; its payload always holds the endpoint
    id and the mode, and holds the ["option"] key exactly when the option
    argument was provided as a non-empty string, with that string as value.
    The call returns nothing but the boolean [True], and does return it
    when the server accepts the request. *)
Theorem set_mode_payload_and_result
    (srv : server) (token endpoint_id mode : json) (opt : option string) (sent : session) :
  let option := optional_str opt in
  let payload := CosaAPI.set_mode_payload endpoint_id mode option in
  let req := CosaAPI.set_mode_request token endpoint_id mode option in
  snd (CosaAPI.set_mode srv token endpoint_id mode option sent) = sent ++ [req] /\
  req_json req = JDict payload /\
  payload !! "endpoint" = Some endpoint_id /\
  payload !! "mode" = Some mode /\
  (is_Some (payload !! "option") <-> exists s, opt = Some s /\ s <> "") /\
  (forall v, payload !! "option" = Some v -> v = option) /\
  (forall b, fst (CosaAPI.set_mode srv token endpoint_id mode option sent) = Return b ->
             b = true) /\
  (forall r, srv sent req = Responds r -> accepted r = true ->
             fst (CosaAPI.set_mode srv token endpoint_id mode option sent) = Return true).
Proof.
  cbv zeta.
  destruct (acknowledged_run srv
              (CosaAPI.set_mode_request token endpoint_id mode (optional_str opt)) sent)
    as [Hsent Hres].
  destruct (set_mode_payload_lookups endpoint_id mode (optional_str opt))
    as (Hid & Hmode & Hopt).
  rewrite Hopt.
  refine (conj Hsent (conj eq_refl (conj Hid (conj Hmode (conj _ (conj _ (conj Hres _))))))).
  - rewrite <- optional_str_truthy.
    destruct (py_truthy (optional_str opt)); split; eauto; try discriminate.
    intros [v Hv]. discriminate.
  - intros v. destruct (py_truthy (optional_str opt)); now intros [= <-].
  - intros r. apply acknowledged_accepted.
Qed.

Lemma set_mode_payload_and_result_witness :
  is_Some (CosaAPI.set_mode_payload (JStr "end_001") (JStr "manual")
             (optional_str (Some "frozen")) !! "option") /\
  fst (CosaAPI.set_mode (always ok_200) (JStr "T1") (JStr "end_001") (JStr "manual")
         (optional_str (Some "frozen")) []) = Return true.
Proof.
  destruct (set_mode_payload_and_result (always ok_200) (JStr "T1") (JStr "end_001")
              (JStr "manual") (Some "frozen") [])
    as (_ & _ & _ & _ & Hiff & _ & _ & Hacc).
  split.
  - apply Hiff. exists "frozen". split; [reflexivity | discriminate].
  - exact (Hacc ok_200 eq_refl eq_refl).
Defined.

(** C7. [set_target_temperatures] sends one request whose payload holds,
    under ["targetTemperatures"], a dict with exactly the four keys [home],
    [away], [sleep] and [custom] bound to the four arguments, whichever of
    them differ from the device's current values; the call returns nothing
    but [True], and does return it when the server accepts the request. *)
Theorem set_target_temperatures_sends_all_four
    (srv : server) (token endpoint_id home away sleep custom : json) (sent : session) :
  let payload := CosaAPI.set_target_temperatures_payload endpoint_id home away sleep custom in
  let req :=
    CosaAPI.set_target_temperatures_request token endpoint_id home away sleep custom in
  let run := CosaAPI.set_target_temperatures srv token endpoint_id home away sleep custom sent in
  snd run = sent ++ [req] /\
  req_json req = JDict payload /\
  payload !! "endpoint" = Some endpoint_id /\
  (exists t : gmap string json,
     payload !! "targetTemperatures" = Some (JDict t) /\
     t !! "home" = Some home /\ t !! "away" = Some away /\
     t !! "sleep" = Some sleep /\ t !! "custom" = Some custom /\
     dom t = ({[ "home"; "away"; "sleep"; "custom" ]} : gset string)) /\
  (forall b, fst run = Return b -> b = true) /\
  (forall r, srv sent req = Responds r -> accepted r = true -> fst run = Return true).
Proof.
  cbv zeta.
  destruct (acknowledged_run srv
              (CosaAPI.set_target_temperatures_request token endpoint_id home away sleep custom)
              sent) as [Hsent Hres].
  refine (conj Hsent (conj eq_refl (conj _ (conj _ (conj Hres _))))).
  - vm_compute. reflexivity.
  - eexists. split; [vm_compute; reflexivity|].
    repeat (split; [vm_compute; reflexivity|]).
    vm_compute. reflexivity.
  - intros r. apply acknowledged_accepted.
Qed.

Lemma set_target_temperatures_sends_all_four_witness :
  fst (CosaAPI.set_target_temperatures (always ok_200) (JStr "T1") (JStr "end_001")
         (JInt 22) (JInt 16) (JInt 18) (JInt 20) []) = Return true.
Proof.
  destruct (set_target_temperatures_sends_all_four (always ok_200) (JStr "T1")
              (JStr "end_001") (JInt 22) (JInt 16) (JInt 18) (JInt 20) [])
    as (_ & _ & _ & _ & _ & Hacc).
  exact (Hacc ok_200 eq_refl eq_refl).
Defined.

(** ** C8 and C9: extract_endpoint_state *)

(** On a record it can normalise, [extract_endpoint_state] returns a state
    whose setpoints are [target_temps_of] and whose target is the record's
    own when it has one, the setpoint looked up under the option otherwise. *)
Lemma extract_endpoint_state_returns (endpoint : gmap string json) :
  normalisable endpoint = true ->
  exists st : gmap string json,
    extract_endpoint_state endpoint = Return st /\
    st !! "target_temperatures" = Some (JDict (target_temps_of endpoint)) /\
    st !! "target_temperature" =
      Some (if target_missing endpoint then
              match current_option endpoint with
              | JStr o => default (JFloat 20.0) (target_temps_of endpoint !! o)
              | _ => JFloat 20.0
              end
            else default JNull (endpoint !! "targetTemperature")).
Proof.
  unfold normalisable, target_missing, current_option, extract_endpoint_state.
  generalize (target_temps_of endpoint). intros tt Hnorm.
  destruct (endpoint !! "targetTemperature") as [[]|];
    cbn [default from_option id] in *;
    try (eexists; split; [reflexivity|]; split; vm_compute; reflexivity).
  all: destruct (default (JStr "home") (endpoint !! "option")) as [| | | |o| |];
    cbn [unhashable andb negb dict_get_any mbind outcome_bind] in *;
    try discriminate Hnorm;
    eexists; (split; [reflexivity|]); split;
    try (vm_compute; reflexivity).
Qed.

Lemma target_temps_detailed (endpoint : gmap string json) (h a s c : json) :
  endpoint !! "homeTemperature" = Some h ->
  endpoint !! "awayTemperature" = Some a ->
  endpoint !! "sleepTemperature" = Some s ->
  endpoint !! "customTemperature" = Some c ->
  target_temps_of endpoint = {[ "home" := h; "away" := a; "sleep" := s; "custom" := c ]}.
Proof.
  intros Hh Ha Hs Hc. unfold target_temps_of.
  rewrite Hh, Ha, Hs, Hc. rewrite bool_decide_true by eauto. reflexivity.
Qed.

Lemma target_temps_defaults (endpoint : gmap string json) :
  endpoint !! "homeTemperature" = None ->
  target_temps_of endpoint =
    {[ "home" := JFloat 20.0; "away" := JFloat 15.0;
       "sleep" := JFloat 18.0; "custom" := JFloat 20.0 ]}.
Proof.
  intros Hh. unfold target_temps_of. rewrite Hh.
  rewrite bool_decide_false by (intros [? ?]; discriminate). reflexivity.
Qed.

(** A record with a documented option is normalised. *)
Lemma documented_option_normalisable (endpoint : gmap string json) :
  documented_option endpoint = true -> normalisable endpoint = true.
Proof.
  unfold documented_option, normalisable, current_option.
  destruct (endpoint !! "option") as [[]|]; try discriminate;
    intros _; cbn [default from_option id unhashable]; now rewrite andb_false_r.
Qed.

(** A record that is not normalised gives no state. *)
Lemma not_normalisable_raises (endpoint : gmap string json) :
  normalisable endpoint = false -> extract_endpoint_state endpoint = Raise TypeError.
Proof.
  unfold normalisable, target_missing, current_option, extract_endpoint_state.
  destruct (endpoint !! "targetTemperature") as [[]|];
    cbn [default from_option id andb negb]; try discriminate.
  all: destruct (default (JStr "home") (endpoint !! "option"));
    cbn [unhashable negb]; try discriminate; reflexivity.
Qed.

Lemma returned_state_normalisable (endpoint st : gmap string json) :
  extract_endpoint_state endpoint = Return st -> normalisable endpoint = true.
Proof.
  intros Hst. destruct (normalisable endpoint) eqn:Hnorm; [reflexivity|].
  rewrite (not_normalisable_raises endpoint Hnorm) in Hst. discriminate.
Qed.

(** C8. For every device record, [extract_endpoint_state] returns a state,
    and in the state it returns: when the record holds the four detailed
    fields [homeTemperature], [awayTemperature], [sleepTemperature] and
    [customTemperature], [target_temperatures] holds exactly their values
    under [home], [away], [sleep] and [custom]; when the record has no
    [homeTemperature] key, [target_temperatures] is the fixed set 20.0, 15.0,
    18.0, 20.0. The same holds of every state the function returns, whatever
    the record. *)
Theorem target_temperatures_of_device_record (endpoint : gmap string json) :
  (documented_option endpoint = true ->
   exists st : gmap string json, extract_endpoint_state endpoint = Return st) /\
  (forall st : gmap string json,
     extract_endpoint_state endpoint = Return st ->
     (forall h a s c : json,
        endpoint !! "homeTemperature" = Some h ->
        endpoint !! "awayTemperature" = Some a ->
        endpoint !! "sleepTemperature" = Some s ->
        endpoint !! "customTemperature" = Some c ->
        st !! "target_temperatures" =
          Some (JDict {[ "home" := h; "away" := a; "sleep" := s; "custom" := c ]})) /\
     (endpoint !! "homeTemperature" = None ->
        st !! "target_temperatures" =
          Some (JDict {[ "home" := JFloat 20.0; "away" := JFloat 15.0;
                         "sleep" := JFloat 18.0; "custom" := JFloat 20.0 ]}))).
Proof.
  split.
  - intros Hdoc. apply documented_option_normalisable in Hdoc.
    destruct (extract_endpoint_state_returns endpoint Hdoc) as (st & Hst & _).
    now exists st.
  - intros st Hst.
    destruct (extract_endpoint_state_returns endpoint
                (returned_state_normalisable endpoint st Hst)) as (st' & Hst' & Htemps & _).
    rewrite Hst in Hst'. injection Hst' as <-. split.
    + intros h a s c Hh Ha Hs Hc. rewrite Htemps.
      now rewrite (target_temps_detailed endpoint h a s c).
    + intros Hh. rewrite Htemps. now rewrite target_temps_defaults.
Qed.

Lemma target_temperatures_of_device_record_witness :
  exists st : gmap string json,
    extract_endpoint_state detailed_record = Return st /\
    st !! "target_temperatures" =
      Some (JDict {[ "home" := JInt 22; "away" := JInt 16;
                     "sleep" := JInt 18; "custom" := JInt 20 ]}).
Proof.
  destruct (target_temperatures_of_device_record detailed_record) as (Hreturns & Hstate).
  destruct (Hreturns eq_refl) as (st & Hst).
  exists st. split; [exact Hst|].
  exact (proj1 (Hstate st Hst) (JInt 22) (JInt 16) (JInt 18) (JInt 20)
           eq_refl eq_refl eq_refl eq_refl).
Defined.



(** ** C10: the exception hierarchy *)

(** C10. [CosaAuthError] is a subclass of [CosaAPIError] and not the other
    way round. Hence, for a computation that ends with an authentication
    failure or with a plain API failure: a handler for [CosaAPIError] alone
    catches it in both cases; with the clauses in the coordinator's order,
    [except CosaAuthError] before [except CosaAPIError], the first clause takes
    the authentication failure and the second the plain one; were the clauses
    swapped, the [CosaAPIError] clause would take both. *)
Theorem auth_error_is_api_error
    {S A : Type} (body h_auth h_api : io S A) (s s' : S) (e : exc_class) :
  body s = (Raise e, s') ->
  e = CosaAuthError \/ e = CosaAPIError ->
  base CosaAuthError = Some CosaAPIError /\
  issubclass CosaAuthError CosaAPIError = true /\
  issubclass CosaAPIError CosaAuthError = false /\
  try_except body [(CosaAPIError, h_api)] s = h_api s' /\
  try_except body [(CosaAuthError, h_auth); (CosaAPIError, h_api)] s =
    (if decide (e = CosaAuthError) then h_auth s' else h_api s') /\
  try_except body [(CosaAPIError, h_api); (CosaAuthError, h_auth)] s = h_api s'.
Proof.
  intros Hbody He.
  repeat (split; [reflexivity|]).
  destruct He as [-> | ->]; repeat split;
    now erewrite try_except_caught by (first [exact Hbody | reflexivity]).
Qed.

Lemma auth_error_is_api_error_witness :
  try_except (CosaAPI.get_endpoint_detail (always unauthorized) (JStr "T1") (JStr "end_001"))
             [(CosaAPIError, raise UpdateFailed)] [] =
    (Raise UpdateFailed, [CosaAPI.get_endpoint_detail_request (JStr "T1") (JStr "end_001")]).
Proof.
  exact (proj1 (proj2 (proj2 (proj2
           (auth_error_is_api_error
              (CosaAPI.get_endpoint_detail (always unauthorized) (JStr "T1") (JStr "end_001"))
              (raise UpdateFailed) (raise UpdateFailed) []
              [CosaAPI.get_endpoint_detail_request (JStr "T1") (JStr "end_001")]
              CosaAuthError eq_refl (or_introl eq_refl)))))).
Defined.

(** ** C2: the refresh of the coordinator *)

(** [_extract_token] raises nothing but [TypeError]. *)
Lemma find_token_raises (keys : list string) (data : json) (e : exc_class) :
  CosaAPI.find_token keys data = Raise e -> e = TypeError.
Proof.
  induction keys as [|key rest IH]; [discriminate|].
  destruct data as [| b | n | f | str | l | d];
    cbn [CosaAPI.find_token py_contains mbind outcome_bind];
    try (now intros [= <-]).
  - destruct (bool_decide _); cbn [py_getitem mbind outcome_bind];
      [now intros [= <-] | exact IH].
  - destruct (existsb _ l); cbn [py_getitem mbind outcome_bind];
      [now intros [= <-] | exact IH].
  - rewrite find_token_dict in IH.
    change (CosaAPI.find_token (key :: rest) (JDict d) = Raise e -> e = TypeError).
    rewrite find_token_dict. discriminate.
Qed.

Lemma extract_token_raises (data : json) (e : exc_class) :
  CosaAPI._extract_token data = Raise e -> e = TypeError.
Proof.
  destruct data as [| b | n | f | str | l | d];
    try (now intros [= <-]);
    try (rewrite extract_token_dict; discriminate).
  all: unfold CosaAPI._extract_token;
    destruct (CosaAPI.find_token CosaAPI.token_keys _) as [[t|]|e'] eqn:Htop;
    cbn [mbind outcome_bind py_contains];
    [ discriminate
    | destruct (_ : bool); cbn [py_getitem mbind outcome_bind];
      [now intros [= <-] | discriminate]
    | intros [= <-]; now apply find_token_raises in Htop ].
Qed.

(** [login] sends one request, and can only end with a token, with one of the
    client's two errors, or with a [TimeoutError] or [TypeError] it lets
    through. *)
Lemma login_run (srv : server) (email password : json) (sent : session) :
  exists o : outcome string,
    CosaAPI.login srv email password sent =
      (o, sent ++ [CosaAPI.login_request email password]) /\
    forall e, o = Raise e ->
      e = CosaAuthError \/ e = CosaAPIError \/ e = TimeoutError \/ e = TypeError.
Proof.
  unfold CosaAPI.login. io_unfold. unfold post.
  destruct (srv sent _) as [[]|[st body]]; cbn [transport_exception decoding status];
    try (eexists; split; [reflexivity | intros e [= <-]; tauto]).
  destruct (st =? 401)%Z; [eexists; split; [reflexivity | intros e [= <-]; tauto]|].
  destruct (st =? 200)%Z; [|eexists; split; [reflexivity | intros e [= <-]; tauto]].
  destruct body as [data|[]]; cbn [decode_exception];
    try (eexists; split; [reflexivity | intros e [= <-]; tauto]).
  destruct (ok_is_zero data) eqn:Hok.
  - destruct data; try discriminate Hok. cbn [py_get].
    destruct (py_eq_int _ 111);
      eexists; (split; [reflexivity | intros e [= <-]; tauto]).
  - destruct (CosaAPI._extract_token data) as [[t|]|e'] eqn:Htok.
    + destruct (String.eqb t "");
        eexists; (split; [reflexivity | intros e; try discriminate; intros [= <-]; tauto]).
    + eexists; split; [reflexivity | intros e [= <-]; tauto].
    + apply extract_token_raises in Htok as ->.
      eexists; split; [reflexivity | intros e [= <-]; tauto].
Qed.

(** [get_endpoint_detail] sends one request, whatever comes back. *)
Lemma get_endpoint_detail_logs (srv : server) (token endpoint_id : json) (sent : session) :
  snd (CosaAPI.get_endpoint_detail srv token endpoint_id sent) =
    sent ++ [CosaAPI.get_endpoint_detail_request token endpoint_id].
Proof.
  unfold CosaAPI.get_endpoint_detail. io_unfold. unfold post.
  destruct (srv sent _) as [[]|[st [v|[]]]]; cbn [transport_exception decoding status];
    try reflexivity.
  all: destruct (st =? 401)%Z; [reflexivity|].
  all: destruct (st =? 200)%Z; cbn [negb]; try reflexivity.
  destruct (ok_is_zero v).
  - destruct (py_get v "code" (JStr "unknown")) as [c|e]; [reflexivity|].
    destruct e; reflexivity.
  - destruct (py_get v "endpoint" v) as [c|e]; [reflexivity|].
    destruct e; reflexivity.
Qed.

(** C2, what the code does. When the device-detail call of a refresh ends
    with [CosaAuthError], the coordinator logs in again exactly once and the
    refresh then always fails: the session has seen the detail request and
    one login request and nothing else, the stored token is never replaced,
    the device-detail call is never issued again, and the failure is never
    reported as [UpdateFailed]. A failed login leaves the handler as it is
    raised; a successful login returns a [str], and looking up [.get] on it
    raises [AttributeError]. *)
Theorem refresh_after_auth_error
    (srv : server) (self : CosaCoordinator) (sent : session) :
  let detail_request :=
    CosaAPI.get_endpoint_detail_request (_endpoint_id self) (_token self) in
  let login_request := CosaAPI.login_request (_email self) (_password self) in
  fst (CosaAPI.get_endpoint_detail srv (_endpoint_id self) (_token self) sent) =
    Raise CosaAuthError ->
  exists e : exc_class,
    _async_update_data srv (self, sent) =
      (Raise e, (self, sent ++ [detail_request; login_request])) /\
    e <> UpdateFailed /\
    (forall t : string,
       fst (CosaAPI.login srv (_email self) (_password self) (sent ++ [detail_request])) =
         Return t ->
       e = AttributeError).
Proof.
  cbv zeta. intros Hraised.
  pose proof (get_endpoint_detail_logs srv (_endpoint_id self) (_token self) sent) as Hlog.
  destruct (CosaAPI.get_endpoint_detail srv (_endpoint_id self) (_token self) sent)
    as [o1 sent1] eqn:Hdetail.
  cbn [fst snd] in Hraised, Hlog. subst o1 sent1.
  destruct (login_run srv (_email self) (_password self)
              (sent ++ [CosaAPI.get_endpoint_detail_request (_endpoint_id self) (_token self)]))
    as (o & Hlogin & Hraises).
  rewrite <- app_assoc in Hlogin. cbn [app] in Hlogin.
  unfold _async_update_data.
  erewrite try_except_caught; cycle 1.
  - unfold mbind, io_bind, get_self, await_api. cbn [fst snd].
    rewrite Hdetail. reflexivity.
  - reflexivity.
  - unfold mbind, io_bind, get_self, await_api, eval. cbn [fst snd].
    rewrite Hlogin. destruct o as [t|e].
    + exists AttributeError. cbn [py_get]. repeat split; discriminate.
    + exists e. split; [reflexivity|]. split.
      * destruct (Hraises e eq_refl) as [-> | [-> | [-> | ->]]]; discriminate.
      * intros t. discriminate.
Qed.

(** The refresh against a server that rejects the token once and then accepts
    the login: the login succeeds with token ["T2"], the coordinator still
    holds ["T1"], the session saw one detail request and one login request,
    and the refresh ends with [AttributeError]. *)
Lemma refresh_after_auth_error_witness :
  CosaAPI.login expired_then_login (JStr "user@example.com") (JStr "secret")
    [CosaAPI.get_endpoint_detail_request (JStr "end_001") (JStr "T1")] =
    (Return "T2",
     [CosaAPI.get_endpoint_detail_request (JStr "end_001") (JStr "T1");
      CosaAPI.login_request (JStr "user@example.com") (JStr "secret")]) /\
  _async_update_data expired_then_login (home_coordinator, []) =
    (Raise AttributeError,
     (home_coordinator,
      [CosaAPI.get_endpoint_detail_request (JStr "end_001") (JStr "T1");
       CosaAPI.login_request (JStr "user@example.com") (JStr "secret")])).
Proof.
  split; [reflexivity|].
  destruct (refresh_after_auth_error expired_then_login home_coordinator [] eq_refl)
    as (e & Hrun & _ & Hattr).
  rewrite (Hattr "T2" eq_refl) in Hrun. exact Hrun.
Defined.

(** * Further properties of the client *)

(** ** One exchange per call *)

Lemma get_endpoints_logs (srv : server) (token : json) (sent : session) :
  snd (CosaAPI.get_endpoints srv token sent) =
    sent ++ [CosaAPI.get_endpoints_request token].
Proof.
  unfold CosaAPI.get_endpoints. io_unfold. unfold post.
  destruct (srv sent _) as [[]|[st [v|[]]]]; cbn [transport_exception decoding status];
    try reflexivity.
  all: destruct (st =? 401)%Z; [reflexivity|].
  all: destruct (st =? 200)%Z; cbn [negb]; try reflexivity.
  destruct (ok_is_zero v).
  - destruct (py_get v "code" (JStr "unknown")) as [c|e]; [reflexivity|].
    destruct e; reflexivity.
  - destruct (py_get v "endpoints" (JList [])) as [c|e]; [|destruct e; reflexivity].
    destruct (py_len c) as [n|e]; [reflexivity|destruct e; reflexivity].
Qed.

(** X1. Whatever the server does, a client operation performs exactly one
    HTTP exchange: the session log grows by the one request of the call;
    nothing is retried. *)
Theorem every_call_sends_one_request (srv : server) (c : api_call) (sent : session) :
  call_session srv c sent = sent ++ [request_of c].
Proof.
  destruct c as [email password|token|token endpoint_id|token endpoint_id mode option
                |token endpoint_id home away sleep custom];
    unfold call_session, request_of.
  - destruct (login_run srv email password sent) as (o & Hrun & _). now rewrite Hrun.
  - apply get_endpoints_logs.
  - apply get_endpoint_detail_logs.
  - apply (acknowledged_run srv (CosaAPI.set_mode_request token endpoint_id mode option) sent).
  - apply (acknowledged_run srv
             (CosaAPI.set_target_temperatures_request token endpoint_id home away sleep custom)
             sent).
Qed.

(** ** Statuses, transport failures and undecodable bodies *)

Lemma post_fails (srv : server) (req : request) (sent : session) (f : transport_failure) :
  srv sent req = Fails f ->
  post srv req sent = (Raise (transport_exception f), sent ++ [req]).
Proof. intros Hsrv. unfold post. now rewrite Hsrv. Qed.

(** Runs a call against a response in hand. *)
Ltac run_call c Hsrv :=
  destruct c; unfold call_raises, call_outcome, raised, request_of in *;
  [ unfold CosaAPI.login | unfold CosaAPI.get_endpoints
  | unfold CosaAPI.get_endpoint_detail | unfold CosaAPI.set_mode
  | unfold CosaAPI.set_target_temperatures ];
  io_unfold; rewrite Hsrv.



(** X3. When the exchange itself fails, every operation turns an
    [aiohttp.ClientError] into [CosaAPIError]; a timeout of the whole request
    ([asyncio.TimeoutError], which is no [ClientError]) is let through as it
    is. *)
Theorem transport_failure_classification
    (srv : server) (c : api_call) (sent : session) (f : transport_failure) :
  srv sent (request_of c) = Fails f ->
  call_raises srv c sent =
    Some (match f with
          | ConnectionFailed => CosaAPIError
          | TimedOut => TimeoutError
          end).
Proof.
  intros Hsrv. apply post_fails in Hsrv.
  run_call c Hsrv; destruct f; reflexivity.
Qed.

Lemma transport_failure_classification_witness :
  call_raises unreachable (Login (JStr "user@example.com") (JStr "secret")) [] =
    Some CosaAPIError.
Proof.
  exact (transport_failure_classification unreachable
           (Login (JStr "user@example.com") (JStr "secret")) [] ConnectionFailed eq_refl).
Defined.



(** ** Bodies that are not dicts *)

(** X5. On a 200 response whose decoded body is not a dict, the failure flag
    cannot be tested: the two mutating operations return [True], and the two
    reading operations raise [AttributeError] from [data.get]. *)
Theorem non_dict_body_outcome
    (srv : server) (c : api_call) (sent : session) (r : response) (v : json) :
  srv sent (request_of c) = Responds r ->
  status r = 200%Z ->
  decoding r = Body v ->
  is_dict v = false ->
  is_login c = false ->
  call_outcome srv c sent =
    (if reads_body c then Raise AttributeError else Return (JBool true)).
Proof.
  intros Hsrv Hst Hbody Hdict Hlogin. apply post_responds in Hsrv.
  run_call c Hsrv; try discriminate Hlogin; rewrite Hst, Hbody;
    destruct v; try discriminate Hdict; reflexivity.
Qed.

Lemma non_dict_body_outcome_witness :
  call_outcome (always list_200)
    (SetMode (JStr "T1") (JStr "end_001") (JStr "manual") (JStr "home")) [] =
    Return (JBool true) /\
  call_outcome (always list_200) (GetEndpoints (JStr "T1")) [] = Raise AttributeError.
Proof.
  split.
  - exact (non_dict_body_outcome (always list_200)
             (SetMode (JStr "T1") (JStr "end_001") (JStr "manual") (JStr "home")) []
             list_200 (JList [JStr "ok"]) eq_refl eq_refl eq_refl eq_refl eq_refl).
  - exact (non_dict_body_outcome (always list_200) (GetEndpoints (JStr "T1")) []
             list_200 (JList [JStr "ok"]) eq_refl eq_refl eq_refl eq_refl eq_refl).
Defined.

(** On a value that is not a dict the loop over the token keys finds nothing:
    it ends without a token or raises [TypeError]. *)
Lemma find_token_non_dict (keys : list string) (v : json) :
  is_dict v = false ->
  CosaAPI.find_token keys v = Return None \/ CosaAPI.find_token keys v = Raise TypeError.
Proof.
  intros Hdict. induction keys as [|key rest IH]; [now left|].
  destruct v as [| b | n | f | str | l | d]; try discriminate Hdict;
    cbn [CosaAPI.find_token py_contains mbind outcome_bind py_getitem];
    try (now right).
  - destruct (bool_decide _); [now right | exact IH].
  - destruct (existsb _ l); [now right | exact IH].
Qed.

Lemma extract_token_non_dict (v : json) :
  is_dict v = false ->
  CosaAPI._extract_token v = Return None \/ CosaAPI._extract_token v = Raise TypeError.
Proof.
  intros Hdict. unfold CosaAPI._extract_token.
  destruct (find_token_non_dict CosaAPI.token_keys v Hdict) as [-> | ->];
    cbn [mbind outcome_bind]; [|now right].
  destruct v as [| b | n | f | str | l | d]; try discriminate Hdict;
    cbn [py_contains mbind outcome_bind py_getitem]; try (now right).
  - destruct (bool_decide _); [now right | now left].
  - destruct (existsb _ l); [now right | now left].
Qed.

(** X6. [login] never returns a token out of a body that is not a dict: on
    such a 200 response it raises [CosaAPIError] or [TypeError]. *)
Theorem login_needs_dict_body
    (srv : server) (email password : json) (sent : session) (r : response) (v : json) :
  srv sent (CosaAPI.login_request email password) = Responds r ->
  status r = 200%Z ->
  decoding r = Body v ->
  is_dict v = false ->
  fst (CosaAPI.login srv email password sent) = Raise CosaAPIError \/
  fst (CosaAPI.login srv email password sent) = Raise TypeError.
Proof.
  intros Hsrv Hst Hbody Hdict. apply post_responds in Hsrv.
  unfold CosaAPI.login. io_unfold. rewrite Hsrv, Hst, Hbody. cbn [Z.eqb Pos.eqb].
  assert (Hok : ok_is_zero v = false) by (destruct v; try discriminate Hdict; reflexivity).
  rewrite Hok.
  destruct (extract_token_non_dict v Hdict) as [-> | ->]; [now left | now right].
Qed.

Lemma login_needs_dict_body_witness :
  fst (CosaAPI.login (always list_200) (JStr "user@example.com") (JStr "secret") []) =
    Raise CosaAPIError \/
  fst (CosaAPI.login (always list_200) (JStr "user@example.com") (JStr "secret") []) =
    Raise TypeError.
Proof.
  exact (login_needs_dict_body (always list_200) (JStr "user@example.com") (JStr "secret") []
           list_200 (JList [JStr "ok"]) eq_refl eq_refl eq_refl eq_refl).
Defined.

(** ** The order of the token fields *)

(** X7. When several token fields of a successful login body hold strings,
    [login] takes the first one: in the order authtoken, authToken, token,
    accessToken, access_token, top-level fields before those under [data].
    If that first string is empty the login fails with [CosaAPIError]; the
    later fields are not tried. *)
Theorem login_takes_first_token
    (srv : server) (email password : json) (sent : session) (r : response)
    (d : gmap string json) (t : string) (others : list string) :
  srv sent (CosaAPI.login_request email password) = Responds r ->
  status r = 200%Z ->
  decoding r = Body (JDict d) ->
  ok_is_zero (JDict d) = false ->
  token_fields d = t :: others ->
  fst (CosaAPI.login srv email password sent) =
    (if String.eqb t "" then Raise CosaAPIError else Return t).
Proof.
  intros Hsrv Hst Hbody Hok Hfields.
  rewrite (login_on_success_body _ _ _ _ _ _ Hsrv Hst Hbody Hok), Hfields.
  reflexivity.
Qed.

Lemma login_takes_first_token_witness :
  fst (CosaAPI.login (always two_tokens_200) (JStr "user@example.com") (JStr "secret") []) =
    Return "first".
Proof.
  exact (login_takes_first_token (always two_tokens_200) (JStr "user@example.com")
           (JStr "secret") [] two_tokens_200 two_tokens_body "first" ["second"]
           eq_refl eq_refl eq_refl eq_refl eq_refl).
Defined.

(** ** The envelope of a request *)

(** X8. Every request goes to a path under the API host with the 30 second
    timeout and keeps the five base headers; the [authtoken] header is absent
    from the request of [login] and holds the token argument in the request
    of every other operation. *)
Theorem request_envelope (c : api_call) :
  (exists path : string, url (request_of c) = API_BASE_URL +:+ path) /\
  timeout (request_of c) = 30%Z /\
  (forall (k : string) (v : json),
     CosaAPI._get_base_headers !! k = Some v -> headers (request_of c) !! k = Some v) /\
  headers (request_of c) !! "authtoken" = token_of c /\
  dom (headers (request_of c)) =
    dom CosaAPI._get_base_headers ∪
    (if is_login c then ∅ else {[ "authtoken" ]} : gset string).
Proof.
  assert (Hfresh : CosaAPI._get_base_headers !! "authtoken" = None) by reflexivity.
  assert (Hkeep : forall (token : json) (k : string) (v : json),
            CosaAPI._get_base_headers !! k = Some v ->
            CosaAPI._get_auth_headers token !! k = Some v).
  { intros token k v Hk. unfold CosaAPI._get_auth_headers.
    rewrite lookup_insert_ne; [exact Hk|]. intros <-. rewrite Hfresh in Hk. discriminate. }
  assert (Htoken : forall token : json,
            CosaAPI._get_auth_headers token !! "authtoken" = Some token).
  { intros token. unfold CosaAPI._get_auth_headers. apply lookup_insert_eq. }
  assert (Hdom : forall token : json,
            dom (CosaAPI._get_auth_headers token) =
              dom CosaAPI._get_base_headers ∪ {[ "authtoken" ]}).
  { intros token. unfold CosaAPI._get_auth_headers. rewrite dom_insert_L. set_solver. }
  destruct c; cbn [request_of is_login token_of];
    (split; [eexists; reflexivity|]); (split; [reflexivity|]);
    cbn [headers CosaAPI.login_request CosaAPI.get_endpoints_request
         CosaAPI.get_endpoint_detail_request CosaAPI.set_mode_request
         CosaAPI.set_target_temperatures_request];
    repeat split; auto.
Qed.

Lemma request_envelope_witness :
  headers (request_of (GetEndpoints (JStr "T1"))) !! "provider" = Some (JStr "cosa").
Proof.
  destruct (request_envelope (GetEndpoints (JStr "T1"))) as (_ & _ & Hbase & _).
  apply Hbase. reflexivity.
Defined.

(** * Further properties of extract_endpoint_state *)

(** X9. [extract_endpoint_state] raises nothing but [TypeError], and raises
    it exactly on the records that have no target temperature (key absent or
    [None]) and whose option is a list or a dict. *)
Theorem extract_raises_exactly (endpoint : gmap string json) :
  outcome_map (fun _ => ()) (extract_endpoint_state endpoint) =
    (if normalisable endpoint then Return () else Raise TypeError).
Proof.
  unfold normalisable, target_missing, current_option, extract_endpoint_state.
  destruct (endpoint !! "targetTemperature") as [[]|];
    cbn [default from_option id andb negb]; try reflexivity.
  all: destruct (default (JStr "home") (endpoint !! "option"));
    reflexivity.
Qed.

(** The state returned for a record that can be normalised, in full. *)
Lemma extract_endpoint_state_value (endpoint : gmap string json) :
  normalisable endpoint = true ->
  exists current_target : json,
    extract_endpoint_state endpoint =
      Return
        {[ "endpoint_id" :=
             py_or (default JNull (endpoint !! "id")) (default JNull (endpoint !! "_id"));
           "name" := default (JStr "COSA Termostat") (endpoint !! "name");
           "temperature" := default JNull (endpoint !! "temperature");
           "humidity" := default JNull (endpoint !! "humidity");
           "target_temperature" := current_target;
           "mode" := default (JStr "manual") (endpoint !! "mode");
           "option" := default (JStr "home") (endpoint !! "option");
           "combi_state" := default (JStr "off") (endpoint !! "combiState");
           "is_connected" := default (JBool false) (endpoint !! "isConnected");
           "operation_mode" := default (JStr "heating") (endpoint !! "operationMode");
           "target_temperatures" := JDict (target_temps_of endpoint) ]}.
Proof.
  unfold normalisable, target_missing, current_option, extract_endpoint_state.
  intros Hnorm.
  destruct (endpoint !! "targetTemperature") as [[]|];
    cbn [default from_option id] in *;
    try (eexists; reflexivity).
  all: destruct (default (JStr "home") (endpoint !! "option"));
    cbn [unhashable andb negb dict_get_any mbind outcome_bind] in *;
    try discriminate Hnorm; eexists; reflexivity.
Qed.

(** X10. A normalised state always has the same eleven keys. Each optional
    field is copied under its state key when the record has the key (an
    explicit [None] included) and replaced by its default only when the key
    is absent: name "COSA Termostat", mode "manual", option "home",
    combi_state "off", is_connected [False], operation_mode "heating", and
    [None] for temperature and humidity. *)
Theorem state_fields_and_defaults (endpoint : gmap string json) :
  normalisable endpoint = true ->
  exists st : gmap string json,
    extract_endpoint_state endpoint = Return st /\
    dom st = state_keys /\
    Forall (fun '(key, state_key, dflt) =>
              st !! state_key = Some (default dflt (endpoint !! key)))
           copied_fields.
Proof.
  intros Hnorm.
  destruct (extract_endpoint_state_value endpoint Hnorm) as (ct & ->).
  eexists. split; [reflexivity|].
  generalize (target_temps_of endpoint). intros tt.
  split; [vm_compute; reflexivity|].
  unfold copied_fields. repeat constructor; vm_compute; reflexivity.
Qed.

Lemma state_fields_and_defaults_witness :
  exists st : gmap string json,
    extract_endpoint_state frozen_record = Return st /\
    st !! "combi_state" = Some (JStr "off") /\
    st !! "mode" = Some (JStr "manual").
Proof.
  destruct (state_fields_and_defaults frozen_record eq_refl) as (st & Hst & _ & Hfields).
  exists st. split; [exact Hst|].
  injection Hst as <-. split; reflexivity.
Defined.

(** X11. The state's [endpoint_id] is the record's [id] when that is truthy;
    when [id] is absent or falsy (an empty string, [None], [0]) it is the
    record's [_id], and [None] when that is absent too. *)
Theorem endpoint_id_fallback (endpoint : gmap string json) :
  normalisable endpoint = true ->
  exists st : gmap string json,
    extract_endpoint_state endpoint = Return st /\
    (forall v : json,
       endpoint !! "id" = Some v -> py_truthy v = true -> st !! "endpoint_id" = Some v) /\
    ((endpoint !! "id" = None \/
      exists v, endpoint !! "id" = Some v /\ py_truthy v = false) ->
     st !! "endpoint_id" = Some (default JNull (endpoint !! "_id"))).
Proof.
  intros Hnorm.
  destruct (extract_endpoint_state_value endpoint Hnorm) as (ct & ->).
  eexists. split; [reflexivity|].
  assert (Hid : forall a b c d e f g h i j k : json,
            ({[ "endpoint_id" := a; "name" := b; "temperature" := c; "humidity" := d;
                "target_temperature" := e; "mode" := f; "option" := g;
                "combi_state" := h; "is_connected" := i; "operation_mode" := j;
                "target_temperatures" := k ]} : gmap string json) !! "endpoint_id" = Some a).
  { intros. vm_compute. reflexivity. }
  rewrite Hid. unfold py_or. split.
  - intros v Hv Htruthy. rewrite Hv. cbn [default from_option id]. now rewrite Htruthy.
  - intros [Hnone | (v & Hv & Hfalsy)].
    + rewrite Hnone. reflexivity.
    + rewrite Hv. cbn [default from_option id]. now rewrite Hfalsy.
Qed.

Lemma endpoint_id_fallback_witness :
  exists st : gmap string json,
    extract_endpoint_state underscore_id_record = Return st /\
    st !! "endpoint_id" = Some (JStr "66e06d3edac55e12009be544").
Proof.
  destruct (endpoint_id_fallback underscore_id_record eq_refl) as (st & Hst & _ & Hfallback).
  exists st. split; [exact Hst|].
  apply Hfallback. right. exists (JStr ""). split; reflexivity.
Defined.

(** * Further properties of the coordinator *)


(** ** The refresh *)

(** The re-login handler the three methods share, whatever follows a login
    result that has [ok]: the login is sent, and the handler ends with the
    login's own exception or, after a successful login, with the
    [AttributeError] of [login_result.get]. *)
Lemma relogin_always_fails
    {A : Type} (srv : server) (after_login : string -> io coordinator_state A)
    (otherwise : io coordinator_state A) (self : CosaCoordinator) (sent : session) :
  (self ← get_self;
   login_result ← await_api (CosaAPI.login srv (_email self) (_password self));
   ok ← eval (py_get (JStr login_result) "ok" JNull);
   if py_truthy ok then after_login login_result else otherwise) (self, sent) =
    (match fst (CosaAPI.login srv (_email self) (_password self) sent) with
     | Return _ => Raise AttributeError
     | Raise e => Raise e
     end,
     (self, sent ++ [CosaAPI.login_request (_email self) (_password self)])).
Proof.
  destruct (login_run srv (_email self) (_password self) sent) as (o & Hlogin & _).
  unfold mbind, io_bind, get_self, await_api, eval. cbn [fst snd].
  rewrite Hlogin. now destruct o.
Qed.

(** The refresh, by the outcome of its device-detail call. *)
Lemma refresh_cases (srv : server) (self : CosaCoordinator) (sent : session) :
  let detail_request :=
    CosaAPI.get_endpoint_detail_request (_endpoint_id self) (_token self) in
  let login_request := CosaAPI.login_request (_email self) (_password self) in
  _async_update_data srv (self, sent) =
    match fst (CosaAPI.get_endpoint_detail srv (_endpoint_id self) (_token self) sent) with
    | Return detail =>
        (if py_truthy (_place_id self) then Raise AttributeError
         else Return (JDict {[ "endpoint" := detail; "forecast" := JDict ∅ ]}),
         (self, sent ++ [detail_request]))
    | Raise e =>
        if decide (e = CosaAuthError) then
          (match fst (CosaAPI.login srv (_email self) (_password self)
                        (sent ++ [detail_request])) with
           | Return _ => Raise AttributeError
           | Raise e' => Raise e'
           end,
           (self, sent ++ [detail_request; login_request]))
        else if decide (e = CosaAPIError) then
          (Raise UpdateFailed, (self, sent ++ [detail_request]))
        else (Raise e, (self, sent ++ [detail_request]))
    end.
Proof.
  cbv zeta.
  pose proof (get_endpoint_detail_logs srv (_endpoint_id self) (_token self) sent) as Hlog.
  destruct (CosaAPI.get_endpoint_detail srv (_endpoint_id self) (_token self) sent)
    as [o1 sent1] eqn:Hdetail.
  cbn [fst snd] in Hlog |- *. subst sent1.
  unfold _async_update_data.
  destruct o1 as [detail|e].
  - unfold try_except, mbind, io_bind, get_self, await_api. cbn [fst snd].
    rewrite Hdetail. unfold get_forecast, raise, mret, io_ret.
    destruct (py_truthy (_place_id self)); reflexivity.
  - assert (Hbody :
      (self0 ← get_self;
       detail ← await_api (CosaAPI.get_endpoint_detail srv (_endpoint_id self0) (_token self0));
       forecast ← (if py_truthy (_place_id self0) then get_forecast else mret (JDict ∅));
       mret (JDict {[ "endpoint" := detail; "forecast" := forecast ]})) (self, sent) =
      (Raise e, (self, sent ++ [CosaAPI.get_endpoint_detail_request (_endpoint_id self)
                                   (_token self)]))).
    { unfold mbind, io_bind, get_self, await_api. cbn [fst snd]. now rewrite Hdetail. }
    destruct (decide (e = CosaAuthError)) as [->|Hauth].
    + erewrite try_except_caught; [|exact Hbody|reflexivity].
      rewrite relogin_always_fails. rewrite <- app_assoc. reflexivity.
    + destruct (decide (e = CosaAPIError)) as [->|Hapi].
      * erewrite try_except_caught; [|exact Hbody|reflexivity]. reflexivity.
      * unfold try_except. rewrite Hbody.
        destruct e; try contradiction; reflexivity.
Qed.

(** X12. A refresh never changes the coordinator: the stored token and
    credentials are the same after it, whatever the server answers. It sends
    the device-detail request, and at most one login request after it. *)
Theorem refresh_keeps_coordinator (srv : server) (self : CosaCoordinator) (sent : session) :
  let detail_request :=
    CosaAPI.get_endpoint_detail_request (_endpoint_id self) (_token self) in
  let login_request := CosaAPI.login_request (_email self) (_password self) in
  fst (snd (_async_update_data srv (self, sent))) = self /\
  (snd (snd (_async_update_data srv (self, sent))) = sent ++ [detail_request] \/
   snd (snd (_async_update_data srv (self, sent))) = sent ++ [detail_request; login_request]).
Proof.
  cbv zeta. rewrite refresh_cases.
  destruct (fst (CosaAPI.get_endpoint_detail srv (_endpoint_id self) (_token self) sent))
    as [detail|e].
  - split; [reflexivity | now left].
  - destruct (decide (e = CosaAuthError)); [split; [reflexivity | now right]|].
    destruct (decide (e = CosaAPIError)); split; first [reflexivity | now left].
Qed.

(** X13. When the device-detail call returns a record, the refresh stores it
    under ["endpoint"] with an empty forecast, provided the coordinator has no
    place id; with a place id the refresh raises [AttributeError], because
    [CosaAPI] has no [get_forecast]. No login takes place either way. *)
Theorem refresh_after_detail
    (srv : server) (self : CosaCoordinator) (sent : session) (detail : json) :
  fst (CosaAPI.get_endpoint_detail srv (_endpoint_id self) (_token self) sent) =
    Return detail ->
  _async_update_data srv (self, sent) =
    (if py_truthy (_place_id self) then Raise AttributeError
     else Return (JDict {[ "endpoint" := detail; "forecast" := JDict ∅ ]}),
     (self,
      sent ++ [CosaAPI.get_endpoint_detail_request (_endpoint_id self) (_token self)])).
Proof. intros Hdetail. rewrite refresh_cases, Hdetail. reflexivity. Qed.

Lemma refresh_after_detail_witness :
  _async_update_data (always detail_200) (home_coordinator, []) =
    (Return (JDict {[ "endpoint" := detail_record; "forecast" := JDict ∅ ]}),
     (home_coordinator,
      [CosaAPI.get_endpoint_detail_request (JStr "end_001") (JStr "T1")])) /\
  _async_update_data (always detail_200) (placed_coordinator, []) =
    (Raise AttributeError,
     (placed_coordinator,
      [CosaAPI.get_endpoint_detail_request (JStr "end_001") (JStr "T1")])).
Proof.
  exact (conj (refresh_after_detail (always detail_200) home_coordinator []
                 detail_record eq_refl)
              (refresh_after_detail (always detail_200) placed_coordinator []
                 detail_record eq_refl)).
Defined.

(** X14. When the device-detail call of a refresh raises anything but
    [CosaAuthError], no login is attempted: a [CosaAPIError] is reported as
    [UpdateFailed], and every other exception (a timeout, the [ValueError] of
    malformed JSON, the [AttributeError] of a body that is not a dict) leaves
    the refresh as it is. *)
Theorem refresh_without_relogin
    (srv : server) (self : CosaCoordinator) (sent : session) (e : exc_class) :
  fst (CosaAPI.get_endpoint_detail srv (_endpoint_id self) (_token self) sent) = Raise e ->
  e <> CosaAuthError ->
  _async_update_data srv (self, sent) =
    (Raise (if decide (e = CosaAPIError) then UpdateFailed else e),
     (self,
      sent ++ [CosaAPI.get_endpoint_detail_request (_endpoint_id self) (_token self)])).
Proof.
  intros Hdetail Hauth. rewrite refresh_cases, Hdetail.
  destruct (decide (e = CosaAuthError)); [contradiction|].
  now destruct (decide (e = CosaAPIError)).
Qed.

Lemma refresh_without_relogin_witness :
  _async_update_data (always unavailable) (home_coordinator, []) =
    (Raise UpdateFailed,
     (home_coordinator,
      [CosaAPI.get_endpoint_detail_request (JStr "end_001") (JStr "T1")])).
Proof.
  refine (refresh_without_relogin (always unavailable) home_coordinator [] CosaAPIError
            eq_refl _).
  discriminate.
Defined.

(** ** The commands *)

(** No exception but [CosaAuthError] itself is taken by an
    [except CosaAuthError] clause standing alone. *)
Lemma only_auth_error_selected {H : Type} (h : H) (e : exc_class) :
  e <> CosaAuthError -> select_handler e [(CosaAuthError, h)] = None.
Proof. intros He. destruct e; try contradiction; reflexivity. Qed.

Lemma auth_error_selected {H : Type} (h : H) :
  select_handler CosaAuthError [(CosaAuthError, h)] = Some h.
Proof. reflexivity. Qed.

(** The text the two commands share, for any client call [cmd] that sends
    the one request [creq]: by the outcome of the first call. *)
Lemma command_cases
    (srv : server) (async_request_refresh : io coordinator_state unit)
    (cmd : CosaCoordinator -> io session bool) (creq : CosaCoordinator -> request)
    (self : CosaCoordinator) (sent : session) :
  (forall s, snd (cmd self s) = s ++ [creq self]) ->
  let run :=
    try_except
      (self ← get_self;
       _ ← await_api (cmd self);
       async_request_refresh)
      [(CosaAuthError,
         self ← get_self;
         login_result ← await_api (CosaAPI.login srv (_email self) (_password self));
         ok ← eval (py_get (JStr login_result) "ok" JNull);
         if py_truthy ok then
           token ← eval (py_get (JStr login_result) "token" JNull);
           _ ← set_token token;
           self ← get_self;
           _ ← await_api (cmd self);
           async_request_refresh
         else mret ())] in
  (forall (b : bool) (o : outcome unit) (st : coordinator_state),
     fst (cmd self sent) = Return b ->
     async_request_refresh (self, sent ++ [creq self]) = (o, st) ->
     o <> Raise CosaAuthError ->
     run (self, sent) = (o, st)) /\
  (fst (cmd self sent) = Raise CosaAuthError ->
   run (self, sent) =
     (match fst (CosaAPI.login srv (_email self) (_password self) (sent ++ [creq self])) with
      | Return _ => Raise AttributeError
      | Raise e => Raise e
      end,
      (self, sent ++ [creq self; CosaAPI.login_request (_email self) (_password self)]))) /\
  (forall e : exc_class,
     fst (cmd self sent) = Raise e ->
     e <> CosaAuthError ->
     run (self, sent) = (Raise e, (self, sent ++ [creq self]))).
Proof.
  intros Hlogs. cbv zeta.
  pose proof (Hlogs sent) as Hlog.
  destruct (cmd self sent) as [o1 sent1] eqn:Hcmd. cbn [fst snd] in Hlog |- *. subst sent1.
  split; [|split].
  - intros b o st -> Hrefresh Ho.
    unfold try_except, mbind, io_bind, get_self, await_api. cbn [fst snd].
    rewrite Hcmd. cbv beta iota.
    change (@pair CosaCoordinator (list request)) with (@pair CosaCoordinator session)
      in Hrefresh.
    rewrite Hrefresh. destruct o as [[]|e]; [reflexivity|].
    rewrite only_auth_error_selected; [reflexivity | congruence].
  - intros ->.
    assert (Hbody :
      (self0 ← get_self; _ ← await_api (cmd self0); async_request_refresh) (self, sent) =
        (Raise CosaAuthError, (self, sent ++ [creq self]))).
    { unfold mbind, io_bind, get_self, await_api. cbn [fst snd]. now rewrite Hcmd. }
    erewrite try_except_caught; [|exact Hbody|reflexivity].
    rewrite relogin_always_fails. rewrite <- app_assoc. reflexivity.
  - intros e -> He.
    unfold try_except, mbind, io_bind, get_self, await_api. cbn [fst snd].
    rewrite Hcmd. now rewrite only_auth_error_selected.
Qed.

(** The same text always sends [creq] first, whatever a log-extending
    refresh adds. *)
Lemma command_log
    (srv : server) (async_request_refresh : io coordinator_state unit)
    (cmd : CosaCoordinator -> io session bool) (creq : CosaCoordinator -> request)
    (self : CosaCoordinator) (sent : session) :
  (forall s, snd (cmd self s) = s ++ [creq self]) ->
  extends_log async_request_refresh ->
  exists more : session,
    snd (snd (try_except
                (self ← get_self;
                 _ ← await_api (cmd self);
                 async_request_refresh)
                [(CosaAuthError,
                   self ← get_self;
                   login_result ← await_api (CosaAPI.login srv (_email self) (_password self));
                   ok ← eval (py_get (JStr login_result) "ok" JNull);
                   if py_truthy ok then
                     token ← eval (py_get (JStr login_result) "token" JNull);
                     _ ← set_token token;
                     self ← get_self;
                     _ ← await_api (cmd self);
                     async_request_refresh
                   else mret ())] (self, sent))) = sent ++ creq self :: more.
Proof.
  intros Hlogs Hext.
  pose proof (Hlogs sent) as Hlog.
  destruct (cmd self sent) as [o1 sent1] eqn:Hcmd. cbn [snd] in Hlog. subst sent1.
  unfold try_except at 1. unfold mbind at 1 2, io_bind at 1 2, get_self at 1, await_api at 1.
  cbn [fst snd]. rewrite Hcmd.
  destruct o1 as [b|e].
  - cbv beta iota.
    match goal with
    | |- context [async_request_refresh ?st] =>
        destruct (Hext st) as (more & Hmore);
        destruct (async_request_refresh st) as [o2 [self2 sent2]]
    end.
    cbn [fst snd] in Hmore. subst sent2.
    destruct o2 as [[]|e].
    + exists more. cbn [snd]. now rewrite <- app_assoc.
    + destruct (decide (e = CosaAuthError)) as [->|He].
      * rewrite auth_error_selected.
        rewrite relogin_always_fails. cbn [snd].
        exists (more ++ [CosaAPI.login_request (_email self2) (_password self2)]).
        now rewrite <- !app_assoc.
      * rewrite only_auth_error_selected by exact He.
        exists more. cbn [snd]. now rewrite <- app_assoc.
  - destruct (decide (e = CosaAuthError)) as [->|He].
    + rewrite auth_error_selected.
      rewrite relogin_always_fails. cbn [snd].
      exists [CosaAPI.login_request (_email self) (_password self)].
      now rewrite <- app_assoc.
    + rewrite only_auth_error_selected by exact He.
      exists []. cbn [snd]. reflexivity.
Qed.

Lemma set_mode_logs (srv : server) (token endpoint_id mode option : json) (sent : session) :
  snd (CosaAPI.set_mode srv token endpoint_id mode option sent) =
    sent ++ [CosaAPI.set_mode_request token endpoint_id mode option].
Proof.
  apply (acknowledged_run srv (CosaAPI.set_mode_request token endpoint_id mode option) sent).
Qed.

Lemma set_target_temperatures_logs
    (srv : server) (token endpoint_id home away sleep custom : json) (sent : session) :
  snd (CosaAPI.set_target_temperatures srv token endpoint_id home away sleep custom sent) =
    sent ++ [CosaAPI.set_target_temperatures_request token endpoint_id home away sleep custom].
Proof.
  apply (acknowledged_run srv
           (CosaAPI.set_target_temperatures_request token endpoint_id home away sleep custom)
           sent).
Qed.

Lemma no_refresh_extends_log : extends_log no_refresh.
Proof. intros st. exists []. symmetry. apply app_nil_r. Qed.

(** X15. [async_set_mode], by the outcome of its [set_mode] call. When the
    call returns, a refresh is requested and its outcome is the command's.
    When the call raises [CosaAuthError], one login is sent and the command
    then always fails, with the login's own error or, after a successful
    login, with [AttributeError]: the token is not replaced, the command is
    not sent again and no refresh is requested. Any other exception, a
    [CosaAPIError] included, leaves the command as it is, without login or
    refresh. *)
Theorem async_set_mode_outcomes
    (srv : server) (async_request_refresh : io coordinator_state unit)
    (self : CosaCoordinator) (sent : session) (mode option : json) :
  let req := CosaAPI.set_mode_request (_endpoint_id self) mode option (_token self) in
  let called :=
    fst (CosaAPI.set_mode srv (_endpoint_id self) mode option (_token self) sent) in
  let run := async_set_mode srv async_request_refresh mode option (self, sent) in
  (forall (b : bool) (o : outcome unit) (st : coordinator_state),
     called = Return b ->
     async_request_refresh (self, sent ++ [req]) = (o, st) ->
     o <> Raise CosaAuthError ->
     run = (o, st)) /\
  (called = Raise CosaAuthError ->
   run =
     (match fst (CosaAPI.login srv (_email self) (_password self) (sent ++ [req])) with
      | Return _ => Raise AttributeError
      | Raise e => Raise e
      end,
      (self, sent ++ [req; CosaAPI.login_request (_email self) (_password self)]))) /\
  (forall e : exc_class,
     called = Raise e -> e <> CosaAuthError -> run = (Raise e, (self, sent ++ [req]))).
Proof.
  exact (command_cases srv async_request_refresh
           (fun self => CosaAPI.set_mode srv (_endpoint_id self) mode option (_token self))
           (fun self => CosaAPI.set_mode_request (_endpoint_id self) mode option (_token self))
           self sent
           (fun s => set_mode_logs srv (_endpoint_id self) mode option (_token self) s)).
Qed.

Lemma async_set_mode_outcomes_witness :
  async_set_mode expired_then_login no_refresh (JStr "manual") (JStr "frozen")
    (home_coordinator, []) =
    (Raise AttributeError,
     (home_coordinator,
      [CosaAPI.set_mode_request (JStr "end_001") (JStr "manual") (JStr "frozen") (JStr "T1");
       CosaAPI.login_request (JStr "user@example.com") (JStr "secret")])) /\
  async_set_mode (always unavailable) no_refresh (JStr "manual") (JStr "frozen")
    (home_coordinator, []) =
    (Raise CosaAPIError,
     (home_coordinator,
      [CosaAPI.set_mode_request (JStr "end_001") (JStr "manual") (JStr "frozen") (JStr "T1")])).
Proof.
  split.
  - exact (proj1 (proj2 (async_set_mode_outcomes expired_then_login no_refresh
                           home_coordinator [] (JStr "manual") (JStr "frozen")))
                 eq_refl).
  - refine (proj2 (proj2 (async_set_mode_outcomes (always unavailable) no_refresh
                            home_coordinator [] (JStr "manual") (JStr "frozen")))
                  CosaAPIError eq_refl _).
    discriminate.
Defined.

(** X16. [async_set_temperatures], by the outcome of its
    [set_target_temperatures] call: as for [async_set_mode], a returned call
    is followed by the refresh request, a [CosaAuthError] by one login after
    which the command always fails without being sent again, and any other
    exception leaves the command as it is. *)
Theorem async_set_temperatures_outcomes
    (srv : server) (async_request_refresh : io coordinator_state unit)
    (self : CosaCoordinator) (sent : session) (home away sleep custom : json) :
  let req :=
    CosaAPI.set_target_temperatures_request
      (_endpoint_id self) home away sleep custom (_token self) in
  let called :=
    fst (CosaAPI.set_target_temperatures srv
           (_endpoint_id self) home away sleep custom (_token self) sent) in
  let run :=
    async_set_temperatures srv async_request_refresh home away sleep custom (self, sent) in
  (forall (b : bool) (o : outcome unit) (st : coordinator_state),
     called = Return b ->
     async_request_refresh (self, sent ++ [req]) = (o, st) ->
     o <> Raise CosaAuthError ->
     run = (o, st)) /\
  (called = Raise CosaAuthError ->
   run =
     (match fst (CosaAPI.login srv (_email self) (_password self) (sent ++ [req])) with
      | Return _ => Raise AttributeError
      | Raise e => Raise e
      end,
      (self, sent ++ [req; CosaAPI.login_request (_email self) (_password self)]))) /\
  (forall e : exc_class,
     called = Raise e -> e <> CosaAuthError -> run = (Raise e, (self, sent ++ [req]))).
Proof.
  exact (command_cases srv async_request_refresh
           (fun self => CosaAPI.set_target_temperatures srv
                          (_endpoint_id self) home away sleep custom (_token self))
           (fun self => CosaAPI.set_target_temperatures_request
                          (_endpoint_id self) home away sleep custom (_token self))
           self sent
           (fun s => set_target_temperatures_logs srv
                       (_endpoint_id self) home away sleep custom (_token self) s)).
Qed.

Lemma async_set_temperatures_outcomes_witness :
  async_set_temperatures (always ok_200) no_refresh (JInt 22) (JInt 16) (JInt 18) (JInt 20)
    (home_coordinator, []) =
    (Return (),
     (home_coordinator,
      [CosaAPI.set_target_temperatures_request (JStr "end_001")
         (JInt 22) (JInt 16) (JInt 18) (JInt 20) (JStr "T1")])).
Proof.
  refine (proj1 (async_set_temperatures_outcomes (always ok_200) no_refresh
                   home_coordinator [] (JInt 22) (JInt 16) (JInt 18) (JInt 20))
                true (Return ()) _ eq_refl eq_refl _).
  discriminate.
Defined.

(** X17. The setMode request [async_set_mode] sends first, whatever follows
    it: [set_mode] is declared [(token, endpoint_id, mode, option)] and called
    with [(endpoint_id, mode, option, token)], so the [authtoken] header holds
    the coordinator's endpoint id, and the payload holds the mode argument as
    ["endpoint"], the option argument as ["mode"] and the stored token (when
    truthy) as ["option"]. *)
Theorem async_set_mode_request_layout
    (srv : server) (async_request_refresh : io coordinator_state unit)
    (self : CosaCoordinator) (sent : session) (mode option : json) :
  extends_log async_request_refresh ->
  exists (req : request) (payload : gmap string json) (more : session),
    snd (snd (async_set_mode srv async_request_refresh mode option (self, sent))) =
      sent ++ req :: more /\
    url req = API_BASE_URL +:+ ENDPOINT_SET_MODE /\
    headers req !! "authtoken" = Some (_endpoint_id self) /\
    req_json req = JDict payload /\
    payload !! "endpoint" = Some mode /\
    payload !! "mode" = Some option /\
    payload !! "option" = (if py_truthy (_token self) then Some (_token self) else None).
Proof.
  intros Hext.
  destruct (command_log srv async_request_refresh
              (fun self => CosaAPI.set_mode srv (_endpoint_id self) mode option (_token self))
              (fun self => CosaAPI.set_mode_request (_endpoint_id self) mode option (_token self))
              self sent
              (fun s => set_mode_logs srv (_endpoint_id self) mode option (_token self) s)
              Hext) as (more & Hmore).
  destruct (set_mode_payload_lookups mode option (_token self)) as (Hid & Hmode & Hopt).
  exists (CosaAPI.set_mode_request (_endpoint_id self) mode option (_token self)),
         (CosaAPI.set_mode_payload mode option (_token self)), more.
  split; [exact Hmore|]. split; [reflexivity|].
  split; [apply lookup_insert_eq|]. split; [reflexivity|].
  split; [exact Hid|]. split; [exact Hmode|exact Hopt].
Qed.

Lemma async_set_mode_request_layout_witness :
  exists (req : request) (payload : gmap string json) (more : session),
    snd (snd (async_set_mode (always ok_200) no_refresh (JStr "manual") (JStr "frozen")
                (home_coordinator, []))) = [] ++ req :: more /\
    url req = API_BASE_URL +:+ ENDPOINT_SET_MODE /\
    headers req !! "authtoken" = Some (JStr "end_001") /\
    req_json req = JDict payload /\
    payload !! "endpoint" = Some (JStr "manual") /\
    payload !! "mode" = Some (JStr "frozen") /\
    payload !! "option" = Some (JStr "T1").
Proof.
  exact (async_set_mode_request_layout (always ok_200) no_refresh home_coordinator []
           (JStr "manual") (JStr "frozen") no_refresh_extends_log).
Defined.

(** X18. The setTargetTemperatures request [async_set_temperatures] sends
    first: [set_target_temperatures] is declared
    [(token, endpoint_id, home, away, sleep, custom)] and called with
    [(endpoint_id, home, away, sleep, custom, token)], so the [authtoken]
    header holds the endpoint id, ["endpoint"] holds the home setpoint, and
    the four setpoints are shifted by one: home holds away, away holds sleep,
    sleep holds custom and custom holds the stored token. *)
Theorem async_set_temperatures_request_layout
    (srv : server) (async_request_refresh : io coordinator_state unit)
    (self : CosaCoordinator) (sent : session) (home away sleep custom : json) :
  extends_log async_request_refresh ->
  exists (req : request) (payload setpoints : gmap string json) (more : session),
    snd (snd (async_set_temperatures srv async_request_refresh home away sleep custom
                (self, sent))) = sent ++ req :: more /\
    url req = API_BASE_URL +:+ ENDPOINT_SET_TARGET_TEMPERATURES /\
    headers req !! "authtoken" = Some (_endpoint_id self) /\
    req_json req = JDict payload /\
    payload !! "endpoint" = Some home /\
    payload !! "targetTemperatures" = Some (JDict setpoints) /\
    setpoints !! "home" = Some away /\
    setpoints !! "away" = Some sleep /\
    setpoints !! "sleep" = Some custom /\
    setpoints !! "custom" = Some (_token self).
Proof.
  intros Hext.
  destruct (command_log srv async_request_refresh
              (fun self => CosaAPI.set_target_temperatures srv
                             (_endpoint_id self) home away sleep custom (_token self))
              (fun self => CosaAPI.set_target_temperatures_request
                             (_endpoint_id self) home away sleep custom (_token self))
              self sent
              (fun s => set_target_temperatures_logs srv
                          (_endpoint_id self) home away sleep custom (_token self) s)
              Hext) as (more & Hmore).
  exists (CosaAPI.set_target_temperatures_request
            (_endpoint_id self) home away sleep custom (_token self)),
         (CosaAPI.set_target_temperatures_payload home away sleep custom (_token self)),
         {[ "home" := away; "away" := sleep; "sleep" := custom; "custom" := _token self ]},
         more.
  split; [exact Hmore|]. split; [reflexivity|].
  split; [apply lookup_insert_eq|]. split; [reflexivity|].
  generalize (_token self). intros token.
  repeat (split; [vm_compute; reflexivity|]). vm_compute. reflexivity.
Qed.

Lemma async_set_temperatures_request_layout_witness :
  exists (req : request) (payload setpoints : gmap string json) (more : session),
    snd (snd (async_set_temperatures (always ok_200) no_refresh
                (JInt 22) (JInt 16) (JInt 18) (JInt 20) (home_coordinator, []))) =
      [] ++ req :: more /\
    url req = API_BASE_URL +:+ ENDPOINT_SET_TARGET_TEMPERATURES /\
    headers req !! "authtoken" = Some (JStr "end_001") /\
    req_json req = JDict payload /\
    payload !! "endpoint" = Some (JInt 22) /\
    payload !! "targetTemperatures" = Some (JDict setpoints) /\
    setpoints !! "home" = Some (JInt 16) /\
    setpoints !! "away" = Some (JInt 18) /\
    setpoints !! "sleep" = Some (JInt 20) /\
    setpoints !! "custom" = Some (JStr "T1").
Proof.
  exact (async_set_temperatures_request_layout (always ok_200) no_refresh home_coordinator []
           (JInt 22) (JInt 16) (JInt 18) (JInt 20) no_refresh_extends_log).
Defined.

(** * Properties of the climate entity *)

Lemma py_eq_str_spec (v : json) (s : string) : py_eq_str v s = true <-> v = JStr s.
Proof.
  destruct v; cbn [py_eq_str]; try (split; [discriminate | intros [=]]).
  destruct (String.eqb_spec s0 s) as [->|Hne]; split; try reflexivity; try discriminate.
  intros [= ->]. contradiction.
Qed.

Lemma py_eq_str_false (v : json) (s : string) : v <> JStr s -> py_eq_str v s = false.
Proof.
  intros Hne. destruct (py_eq_str v s) eqn:Heq; [|reflexivity].
  apply py_eq_str_spec in Heq. contradiction.
Qed.

(** Reading a field of the snapshot's record. *)
Lemma endpoint_get_dict (data : json) (e : gmap string json) (key : string) (dflt : json) :
  CosaClimate._endpoint data = Return (JDict e) ->
  CosaClimate.endpoint_get data key dflt = Return (default dflt (e !! key)).
Proof. intros He. unfold CosaClimate.endpoint_get. now rewrite He. Qed.

Lemma default_null_is_str (o : option json) (s : string) :
  default JNull o = JStr s <-> o = Some (JStr s).
Proof.
  destruct o as [v|]; cbn [default from_option id]; split;
    try discriminate; congruence.
Qed.

(** X19. On a snapshot whose record is a dict, [hvac_mode] is [OFF] exactly
    when the record's mode is "manual" and its option is "frozen", and [HEAT]
    in every other case (schedule and auto modes included); [hvac_action] is
    [HEATING] exactly when [combiState] is "on", and [IDLE] otherwise. *)
Theorem hvac_readings (data : json) (e : gmap string json) :
  CosaClimate._endpoint data = Return (JDict e) ->
  exists (m : HVACMode) (a : HVACAction),
    CosaClimate.hvac_mode data = Return m /\
    CosaClimate.hvac_action data = Return a /\
    (m = OFF \/ m = HEAT) /\
    (m = OFF <->
       e !! "mode" = Some (JStr "manual") /\ e !! "option" = Some (JStr "frozen")) /\
    (a = HEATING <-> e !! "combiState" = Some (JStr "on")).
Proof.
  intros He. unfold CosaClimate.hvac_mode, CosaClimate.hvac_action.
  rewrite !(endpoint_get_dict data e) by exact He.
  cbn [mbind outcome_bind].
  change MODE_MANUAL with "manual". change OPTION_FROZEN with "frozen".
  destruct (py_eq_str (default JNull (e !! "mode")) "manual") eqn:Hm;
    [destruct (py_eq_str (default JNull (e !! "option")) "frozen") eqn:Ho|];
    destruct (py_eq_str (default JNull (e !! "combiState")) "on") eqn:Hc;
    do 2 eexists; (split; [reflexivity|]); (split; [reflexivity|]);
    rewrite <- !default_null_is_str, <- !py_eq_str_spec, Hm, ?Ho, Hc;
    intuition (try discriminate; eauto).
Qed.

Lemma hvac_readings_witness :
  exists (m : HVACMode) (a : HVACAction),
    CosaClimate.hvac_mode frozen_snapshot = Return m /\
    CosaClimate.hvac_action frozen_snapshot = Return a /\
    m = OFF /\ a = IDLE.
Proof.
  destruct (hvac_readings frozen_snapshot
              {[ "mode" := JStr "manual"; "option" := JStr "frozen" ]} eq_refl)
    as (m & a & Hm & Ha & _ & Hoff & _).
  exists m, a. split; [exact Hm|]. split; [exact Ha|]. split.
  - apply Hoff. split; reflexivity.
  - vm_compute in Ha. injection Ha as <-. reflexivity.
Defined.

(** X20. For each mode the entity declares ([OFF], [HEAT]),
    [async_set_hvac_mode] asks the coordinator for a manual mode and option
    that [hvac_mode] reads back as the same mode from any record holding
    them: "frozen" for [OFF], "home" for [HEAT]. *)
Theorem hvac_mode_round_trip
    (srv : server) (async_request_refresh : io coordinator_state unit) (m : HVACMode) :
  In m CosaClimate._attr_hvac_modes ->
  let option := if decide (m = OFF) then OPTION_FROZEN else OPTION_HOME in
  CosaClimate.async_set_hvac_mode srv async_request_refresh m =
    async_set_mode srv async_request_refresh (JStr MODE_MANUAL) (JStr option) /\
  forall (data : json) (e : gmap string json),
    CosaClimate._endpoint data = Return (JDict e) ->
    e !! "mode" = Some (JStr MODE_MANUAL) ->
    e !! "option" = Some (JStr option) ->
    CosaClimate.hvac_mode data = Return m.
Proof.
  intros Hin.
  assert (Hread : forall (option : string) (data : json) (e : gmap string json),
            CosaClimate._endpoint data = Return (JDict e) ->
            e !! "mode" = Some (JStr MODE_MANUAL) ->
            e !! "option" = Some (JStr option) ->
            CosaClimate.hvac_mode data =
              Return (if String.eqb option OPTION_FROZEN then OFF else HEAT)).
  { intros option data e He Hmode Hoption. unfold CosaClimate.hvac_mode.
    rewrite !(endpoint_get_dict data e) by exact He. rewrite Hmode, Hoption.
    cbn [mbind outcome_bind default from_option id py_eq_str].
    change (String.eqb MODE_MANUAL MODE_MANUAL) with true. cbv iota.
    now destruct (String.eqb option OPTION_FROZEN). }
  destruct Hin as [<- | [<- | []]]; cbv zeta; cbn [decide HVACMode_eq_dec];
    (split; [reflexivity|]);
    intros data e He Hmode Hoption; now rewrite (Hread _ _ _ He Hmode Hoption).
Qed.

Lemma hvac_mode_round_trip_witness :
  CosaClimate.async_set_hvac_mode (always ok_200) no_refresh OFF =
    async_set_mode (always ok_200) no_refresh (JStr MODE_MANUAL) (JStr OPTION_FROZEN) /\
  CosaClimate.hvac_mode frozen_snapshot = Return OFF.
Proof.
  destruct (hvac_mode_round_trip (always ok_200) no_refresh OFF (or_introl eq_refl))
    as (Hsent & Hread).
  split; [exact Hsent|].
  apply (Hread frozen_snapshot {[ "mode" := JStr "manual"; "option" := JStr "frozen" ]});
    reflexivity.
Defined.

(** X21. Every preset name makes a round trip: [async_set_preset_mode] asks
    the coordinator for a mode (and, for the manual presets, an option) such
    that [preset_mode] reads the same name back from any record holding them.
    "schedule" and "auto" select the mode of that name without an option;
    every other name selects manual mode with the name as option. *)
Theorem preset_round_trip
    (srv : server) (async_request_refresh : io coordinator_state unit) (preset : string) :
  let mode :=
    if String.eqb preset PRESET_SCHEDULE then MODE_SCHEDULE
    else if String.eqb preset PRESET_AUTO then MODE_AUTO
    else MODE_MANUAL in
  let option :=
    if String.eqb preset PRESET_SCHEDULE || String.eqb preset PRESET_AUTO then JNull
    else JStr preset in
  CosaClimate.async_set_preset_mode srv async_request_refresh (JStr preset) =
    async_set_mode srv async_request_refresh (JStr mode) option /\
  forall (data : json) (e : gmap string json),
    CosaClimate._endpoint data = Return (JDict e) ->
    e !! "mode" = Some (JStr mode) ->
    (option <> JNull -> e !! "option" = Some option) ->
    CosaClimate.preset_mode data = Return (JStr preset).
Proof.
  cbv zeta.
  unfold CosaClimate.async_set_preset_mode, CosaClimate.preset_mode. cbn [py_eq_str].
  destruct (String.eqb_spec preset PRESET_SCHEDULE) as [->|Hsched]; cbn [orb].
  - split; [reflexivity|].
    intros data e He Hmode _. rewrite !(endpoint_get_dict data e) by exact He.
    now rewrite Hmode.
  - destruct (String.eqb_spec preset PRESET_AUTO) as [->|Hauto].
    + split; [reflexivity|].
      intros data e He Hmode _. rewrite !(endpoint_get_dict data e) by exact He.
      now rewrite Hmode.
    + split; [reflexivity|].
      intros data e He Hmode Hoption. rewrite !(endpoint_get_dict data e) by exact He.
      rewrite Hmode, Hoption by discriminate. reflexivity.
Qed.

(** The snapshots the entity reads nothing from: falsy ones ([None] before
    the first refresh), and dicts without an ["endpoint"] key. *)
Lemma endpoint_of_empty_snapshot (data : json) :
  py_truthy data = false \/ (exists d, data = JDict d /\ d !! "endpoint" = None) ->
  CosaClimate._endpoint data = Return (JDict ∅).
Proof.
  unfold CosaClimate._endpoint. intros [-> | (d & -> & Hd)]; [reflexivity|].
  cbn [py_get]. rewrite Hd. now destruct (py_truthy (JDict d)).
Qed.

(** X22. Before the first refresh (snapshot [None]), and on any snapshot that
    is falsy or a dict without an ["endpoint"] key (a state in the shape of
    [extract_endpoint_state] is one), the entity reports no current and no
    target temperature, mode [HEAT], action [IDLE] and no preset. *)
Theorem readings_without_record (data : json) :
  py_truthy data = false \/ (exists d, data = JDict d /\ d !! "endpoint" = None) ->
  CosaClimate.current_temperature data = Return JNull /\
  CosaClimate.target_temperature data = Return JNull /\
  CosaClimate.hvac_mode data = Return HEAT /\
  CosaClimate.hvac_action data = Return IDLE /\
  CosaClimate.preset_mode data = Return JNull.
Proof.
  intros Hdata. apply endpoint_of_empty_snapshot in Hdata.
  unfold CosaClimate.current_temperature, CosaClimate.target_temperature,
    CosaClimate.hvac_mode, CosaClimate.hvac_action, CosaClimate.preset_mode.
  rewrite !(endpoint_get_dict data ∅) by exact Hdata.
  repeat split.
Qed.

Lemma readings_without_record_witness :
  CosaClimate.current_temperature JNull = Return JNull /\
  CosaClimate.target_temperature JNull = Return JNull /\
  CosaClimate.hvac_mode JNull = Return HEAT /\
  CosaClimate.hvac_action JNull = Return IDLE /\
  CosaClimate.preset_mode JNull = Return JNull.
Proof. exact (readings_without_record JNull (or_introl eq_refl)). Defined.

(** X23. [async_set_temperature] does nothing when no temperature is given
    (key absent or [None]). Given one, and a snapshot whose record is a dict,
    it passes four setpoints to the coordinator of which exactly the one
    named by the record's option ("home" when absent) is the new
    temperature, [home] standing in for any option that is not "away",
    "sleep" or "custom" ("frozen" included); the other three are the
    record's detailed fields, or 21, 15, 19 and 20 where a field is absent. *)
Theorem set_temperature_replaces_one_setpoint
    (srv : server) (async_request_refresh : io coordinator_state unit)
    (data : json) (e kwargs : gmap string json) :
  CosaClimate._endpoint data = Return (JDict e) ->
  let temperature := default JNull (kwargs !! "temperature") in
  let option := default (JStr "home") (e !! "option") in
  let home := default (JInt 21) (e !! "homeTemperature") in
  let away := default (JInt 15) (e !! "awayTemperature") in
  let sleep := default (JInt 19) (e !! "sleepTemperature") in
  let custom := default (JInt 20) (e !! "customTemperature") in
  let run := CosaClimate.async_set_temperature srv async_request_refresh data kwargs in
  let pass := async_set_temperatures srv async_request_refresh in
  (temperature = JNull -> run = mret ()) /\
  (temperature <> JNull ->
   (option = JStr "away" -> run = pass home temperature sleep custom) /\
   (option = JStr "sleep" -> run = pass home away temperature custom) /\
   (option = JStr "custom" -> run = pass home away sleep temperature) /\
   (option <> JStr "away" -> option <> JStr "sleep" -> option <> JStr "custom" ->
    run = pass temperature away sleep custom)).
Proof.
  intros He. cbv zeta. unfold CosaClimate.async_set_temperature.
  change ATTR_TEMPERATURE with "temperature".
  split.
  - intros ->. reflexivity.
  - intros Hgiven.
    assert (Hrun :
      CosaClimate.async_set_temperature srv async_request_refresh data kwargs =
      let '(h, a, s, c) :=
        CosaClimate.replace_setpoint
          (default (JStr "home") (e !! "option"))
          (default JNull (kwargs !! "temperature"))
          (default (JInt 21) (e !! "homeTemperature"))
          (default (JInt 15) (e !! "awayTemperature"))
          (default (JInt 19) (e !! "sleepTemperature"))
          (default (JInt 20) (e !! "customTemperature")) in
      async_set_temperatures srv async_request_refresh h a s c).
    { unfold CosaClimate.async_set_temperature.
      change ATTR_TEMPERATURE with "temperature". change OPTION_HOME with "home".
      rewrite !(endpoint_get_dict data e) by exact He.
      destruct (default JNull (kwargs !! "temperature")); try contradiction; reflexivity. }
    unfold CosaClimate.async_set_temperature in Hrun.
    change ATTR_TEMPERATURE with "temperature" in Hrun.
    rewrite Hrun. unfold CosaClimate.replace_setpoint.
    change OPTION_HOME with "home". change OPTION_AWAY with "away".
    change OPTION_SLEEP with "sleep". change OPTION_CUSTOM with "custom".
    repeat split.
    + intros ->. reflexivity.
    + intros ->. reflexivity.
    + intros ->. reflexivity.
    + intros Haway Hsleep Hcustom.
      rewrite (py_eq_str_false _ "away" Haway), (py_eq_str_false _ "sleep" Hsleep),
        (py_eq_str_false _ "custom" Hcustom).
      now destruct (py_eq_str _ "home").
Qed.

Lemma set_temperature_replaces_one_setpoint_witness :
  CosaClimate.async_set_temperature (always ok_200) no_refresh away_snapshot
    {[ "temperature" := JFloat 17.5 ]} =
    async_set_temperatures (always ok_200) no_refresh
      (JInt 22) (JFloat 17.5) (JInt 19) (JInt 20).
Proof.
  refine (proj1 (proj2 (set_temperature_replaces_one_setpoint (always ok_200) no_refresh
                          away_snapshot
                          {[ "option" := JStr "away"; "homeTemperature" := JInt 22;
                             "awayTemperature" := JInt 16 ]}
                          {[ "temperature" := JFloat 17.5 ]} eq_refl) _) eq_refl).
  discriminate.
Defined.

Lemma preset_round_trip_witness :
  CosaClimate.preset_mode (stored_snapshot sleep_record) = Return (JStr "sleep").
Proof.
  destruct (preset_round_trip (always ok_200) no_refresh "sleep") as (_ & Hread).
  apply (Hread (stored_snapshot sleep_record) sleep_record); reflexivity.
Defined.

(** ** The extra state attributes *)

Lemma stored_snapshot_endpoint (e : gmap string json) :
  CosaClimate._endpoint (stored_snapshot e) = Return (JDict e).
Proof. vm_compute. reflexivity. Qed.

Lemma stored_snapshot_forecast (e : gmap string json) :
  CosaClimate._forecast (stored_snapshot e) = Return (JDict ∅).
Proof. vm_compute. reflexivity. Qed.

(** The attributes of a stored snapshot, by the record's [device]. *)
Lemma extra_state_attributes_stored (e : gmap string json) :
  CosaClimate.extra_state_attributes (stored_snapshot e) =
    (firmware_version ← py_get (default (JDict ∅) (e !! "device")) "version" JNull;
     Return
       (<["mode" := default JNull (e !! "mode")]>
        (<["option" := default JNull (e !! "option")]>
        (<["combi_state" := default JNull (e !! "combiState")]>
        {[ "home_temperature" := default JNull (e !! "homeTemperature");
           "away_temperature" := default JNull (e !! "awayTemperature");
           "sleep_temperature" := default JNull (e !! "sleepTemperature");
           "custom_temperature" := default JNull (e !! "customTemperature");
           "firmware_version" := firmware_version;
           "battery_voltage" := default JNull (e !! "batteryVoltage");
           "power_state" := default JNull (e !! "powerState");
           "rssi" := default JNull (e !! "rssi");
           "child_lock" := default JNull (e !! "childLock");
           "open_window_state" := default JNull (e !! "openWindowState");
           "outdoor_temperature" := JNull;
           "outdoor_humidity" := JNull;
           "weather_icon" := JNull ]})))).
Proof.
  unfold CosaClimate.extra_state_attributes.
  rewrite !(endpoint_get_dict (stored_snapshot e) e) by apply stored_snapshot_endpoint.
  rewrite stored_snapshot_forecast.
  cbn [mbind outcome_bind py_get].
  change (default (JList [JDict ∅]) (∅ !! "hourly")) with (JList [JDict ∅]).
  change (first_or_empty (JList [JDict ∅])) with (Return (JDict ∅) : outcome json).
  cbn [mbind outcome_bind py_get].
  reflexivity.
Qed.

(** X24. On the snapshot of a successful refresh whose record has a
    [device] that is not a dict (the list endpoint gives the device as an id
    string), [extra_state_attributes] raises [AttributeError] from
    [device.get]. *)
Theorem attributes_need_device_object (e : gmap string json) (device : json) :
  e !! "device" = Some device ->
  is_dict device = false ->
  CosaClimate.extra_state_attributes (stored_snapshot e) = Raise AttributeError.
Proof.
  intros Hdevice Hdict. rewrite extra_state_attributes_stored, Hdevice.
  destruct device; try discriminate Hdict; reflexivity.
Qed.

Lemma attributes_need_device_object_witness :
  CosaClimate.extra_state_attributes (stored_snapshot listed_record) = Raise AttributeError.
Proof.
  exact (attributes_need_device_object listed_record (JStr "65a14f74774cc50932c98980")
           eq_refl eq_refl).
Defined.

(** X25. On the snapshot of a successful refresh whose record has no
    [device] or a dict as [device], [extra_state_attributes] returns exactly
    sixteen attributes: each of the twelve copied record fields under its
    attribute key ([None] where the record lacks the field), the firmware
    version as the device's [version], and the three weather attributes,
    which are always [None], since a stored forecast is always empty. *)
Theorem attributes_of_stored_snapshot (e device : gmap string json) :
  default (JDict ∅) (e !! "device") = JDict device ->
  exists attrs : gmap string json,
    CosaClimate.extra_state_attributes (stored_snapshot e) = Return attrs /\
    dom attrs = attribute_keys /\
    Forall (fun '(key, attribute) => attrs !! attribute = Some (default JNull (e !! key)))
           copied_attributes /\
    attrs !! "firmware_version" = Some (default JNull (device !! "version")) /\
    attrs !! "outdoor_temperature" = Some JNull /\
    attrs !! "outdoor_humidity" = Some JNull /\
    attrs !! "weather_icon" = Some JNull.
Proof.
  intros Hdevice. rewrite extra_state_attributes_stored, Hdevice.
  cbn [py_get mbind outcome_bind].
  eexists. split; [reflexivity|].
  split.
  - generalize (default JNull (device !! "version")).
    generalize (default JNull (e !! "mode")) (default JNull (e !! "option"))
      (default JNull (e !! "combiState")) (default JNull (e !! "homeTemperature"))
      (default JNull (e !! "awayTemperature")) (default JNull (e !! "sleepTemperature"))
      (default JNull (e !! "customTemperature")) (default JNull (e !! "batteryVoltage"))
      (default JNull (e !! "powerState")) (default JNull (e !! "rssi"))
      (default JNull (e !! "childLock")) (default JNull (e !! "openWindowState")).
    intros. vm_compute. reflexivity.
  - split; [unfold copied_attributes; repeat constructor; vm_compute; reflexivity|].
    repeat split; vm_compute; reflexivity.
Qed.

Lemma attributes_of_stored_snapshot_witness :
  exists attrs : gmap string json,
    CosaClimate.extra_state_attributes (stored_snapshot versioned_record) = Return attrs /\
    attrs !! "firmware_version" = Some (JStr "1.4.2") /\
    attrs !! "combi_state" = Some (JStr "on") /\
    attrs !! "rssi" = Some JNull /\
    attrs !! "outdoor_temperature" = Some JNull.
Proof.
  destruct (attributes_of_stored_snapshot versioned_record {[ "version" := JStr "1.4.2" ]}
              eq_refl) as (attrs & Hattrs & _ & Hcopied & Hfw & Hout & _).
  exists attrs. split; [exact Hattrs|]. split; [exact Hfw|].
  unfold copied_attributes in Hcopied.
  repeat match goal with
         | H : Forall _ (_ :: _) |- _ => apply Forall_cons_1 in H; destruct H
         end.
  split; [assumption|]. split; [assumption|exact Hout].
Defined.

(** ** From the server's answer to the entity *)

(** X26. End to end: when the server answers the device-detail request of a
    refresh with HTTP 200 and a dict body without [ok == 0] that wraps a
    record under ["endpoint"], and the coordinator has no place id, the
    refresh returns the snapshot holding that record, and on it the entity
    reports the record's own [temperature] and [targetTemperature] fields,
    [None] where the record lacks them. *)
Theorem refreshed_entity_readings
    (srv : server) (self : CosaCoordinator) (sent : session) (r : response)
    (d e : gmap string json) :
  srv sent (CosaAPI.get_endpoint_detail_request (_endpoint_id self) (_token self)) =
    Responds r ->
  status r = 200%Z ->
  decoding r = Body (JDict d) ->
  ok_is_zero (JDict d) = false ->
  d !! "endpoint" = Some (JDict e) ->
  py_truthy (_place_id self) = false ->
  fst (_async_update_data srv (self, sent)) = Return (stored_snapshot e) /\
  CosaClimate.current_temperature (stored_snapshot e) =
    Return (default JNull (e !! "temperature")) /\
  CosaClimate.target_temperature (stored_snapshot e) =
    Return (default JNull (e !! "targetTemperature")).
Proof.
  intros Hsrv Hst Hbody Hok Hrecord Hplace.
  assert (Hdetail :
    fst (CosaAPI.get_endpoint_detail srv (_endpoint_id self) (_token self) sent) =
      Return (JDict e)).
  { unfold CosaAPI.get_endpoint_detail. io_unfold.
    rewrite (post_responds _ _ _ _ Hsrv), Hst, Hbody. cbn [Z.eqb Pos.eqb negb].
    rewrite Hok. unfold py_get. now rewrite Hrecord. }
  split; [|split].
  - rewrite refresh_cases, Hdetail, Hplace. reflexivity.
  - apply endpoint_get_dict, stored_snapshot_endpoint.
  - apply endpoint_get_dict, stored_snapshot_endpoint.
Qed.

Lemma refreshed_entity_readings_witness :
  fst (_async_update_data (always detail_200) (home_coordinator, [])) =
    Return (stored_snapshot {[ "id" := JStr "end_001"; "temperature" := JFloat 20.5 ]}) /\
  CosaClimate.current_temperature
    (stored_snapshot {[ "id" := JStr "end_001"; "temperature" := JFloat 20.5 ]}) =
    Return (JFloat 20.5) /\
  CosaClimate.target_temperature
    (stored_snapshot {[ "id" := JStr "end_001"; "temperature" := JFloat 20.5 ]}) =
    Return JNull.
Proof.
  exact (refreshed_entity_readings (always detail_200) home_coordinator [] detail_200
           detail_body {[ "id" := JStr "end_001"; "temperature" := JFloat 20.5 ]}
           eq_refl eq_refl eq_refl eq_refl eq_refl eq_refl).
Defined.
